(** * MindCanvas: the CameraView capture session

    A shallow embedding of the [CameraView] React component: its six
    [useState] cells, its three [useRef] cells, the [useEffect] that
    acquires the camera, the event handlers, and the part of the browser
    they talk to (media tracks, [getUserMedia] promises, the object-URL
    registry, [MediaRecorder] objects, [canvas.toBlob] jobs).

    The component is event driven: every handler runs to completion, React
    commits the new render, and asynchronous completions (a settled
    [getUserMedia] promise, a [toBlob] callback, a recorder event) arrive as
    further events.  [step] is that event loop. *)

From Stdlib Require Import QArith.
From stdpp Require Import gmap strings list fin_maps.

Open Scope string_scope.
Open Scope list_scope.
Open Scope nat_scope.

(** ** Data *)

Inductive CaptureMode := photo | video.
Inductive FacingMode := environment | user.

#[local] Instance CaptureMode_eq_dec : EqDecision CaptureMode.
Proof. solve_decision. Defined.
#[local] Instance FacingMode_eq_dec : EqDecision FacingMode.
Proof. solve_decision. Defined.

(** A [Blob]: immutable bytes with a MIME type. *)
Record Blob := { blob_data : list Byte.byte; blob_type : string }.

Definition blob_size (b : Blob) : nat := length (blob_data b).

(** [new Blob(parts, { type })]: the parts' bytes, in order. *)
Definition new_Blob (parts : list Blob) (type : string) : Blob :=
  {| blob_data := concat (map blob_data parts); blob_type := type |}.

(** A [MediaStream] as handed out by [getUserMedia]: its tracks and the
    frame size the device negotiated. *)
Record MediaStream := {
  stream_id : nat;
  stream_tracks : list nat;
  frame_width : nat;
  frame_height : nat
}.

Record MediaStreamConstraints := {
  c_facingMode : FacingMode;
  c_width_ideal : nat;
  c_height_ideal : nat;
  c_audio : bool
}.

(** The [<video>] element behind [videoRef]. *)
Record HTMLVideoElement := { srcObject : option MediaStream }.

Definition videoWidth (el : HTMLVideoElement) : nat :=
  match srcObject el with Some ms => frame_width ms | None => 0 end.

Definition videoHeight (el : HTMLVideoElement) : nat :=
  match srcObject el with Some ms => frame_height ms | None => 0 end.

Inductive RecordingState := inactive | recording.

Record MediaRecorder := {
  rec_stream : MediaStream;
  rec_mimeType : string;
  rec_state : RecordingState;
  (* [stop()] was called and the "stop" event is still to be dispatched *)
  rec_stopping : bool
}.

(** A job queued by [canvas.toBlob(callback, type, quality)]. *)
Record ToBlobRequest := {
  canvas_width : nat;
  canvas_height : nat;
  drawn_from : option MediaStream;
  tb_type : string;
  tb_quality : Q
}.

(** What the component does to the outside: console, [alert], and the two
    props. *)
Inductive Effect :=
| console_error (msg : string)
| alert (msg : string)
| onClose
| onCapture (blob : Blob) (mimeType : string).

(** ** The browser *)

Record Browser := {
  live_tracks : gset nat;                       (* readyState = "live" *)
  streams : list MediaStream;                   (* every stream handed out *)
  next_track : nat;
  gum_pending : gmap nat MediaStreamConstraints; (* unsettled getUserMedia *)
  next_request : nat;
  object_urls : gmap nat Blob;                  (* URL.createObjectURL *)
  next_url : nat;
  recorders : gmap nat MediaRecorder;
  next_recorder : nat;
  toBlob_pending : list ToBlobRequest;
  supported_types : list string;                (* MediaRecorder codecs *)
  default_type : string;
  context_2d : bool                             (* getContext('2d') works *)
}.

Definition set_live_tracks (f : gset nat → gset nat) (b : Browser) : Browser :=
  {| live_tracks := f (live_tracks b); streams := streams b;
     next_track := next_track b; gum_pending := gum_pending b;
     next_request := next_request b; object_urls := object_urls b;
     next_url := next_url b; recorders := recorders b;
     next_recorder := next_recorder b; toBlob_pending := toBlob_pending b;
     supported_types := supported_types b; default_type := default_type b;
     context_2d := context_2d b |}.

Definition set_gum_pending (f : gmap nat MediaStreamConstraints → gmap nat MediaStreamConstraints)
    (b : Browser) : Browser :=
  {| live_tracks := live_tracks b; streams := streams b;
     next_track := next_track b; gum_pending := f (gum_pending b);
     next_request := next_request b; object_urls := object_urls b;
     next_url := next_url b; recorders := recorders b;
     next_recorder := next_recorder b; toBlob_pending := toBlob_pending b;
     supported_types := supported_types b; default_type := default_type b;
     context_2d := context_2d b |}.

Definition set_object_urls (f : gmap nat Blob → gmap nat Blob) (b : Browser) : Browser :=
  {| live_tracks := live_tracks b; streams := streams b;
     next_track := next_track b; gum_pending := gum_pending b;
     next_request := next_request b; object_urls := f (object_urls b);
     next_url := next_url b; recorders := recorders b;
     next_recorder := next_recorder b; toBlob_pending := toBlob_pending b;
     supported_types := supported_types b; default_type := default_type b;
     context_2d := context_2d b |}.

Definition set_recorders (f : gmap nat MediaRecorder → gmap nat MediaRecorder)
    (b : Browser) : Browser :=
  {| live_tracks := live_tracks b; streams := streams b;
     next_track := next_track b; gum_pending := gum_pending b;
     next_request := next_request b; object_urls := object_urls b;
     next_url := next_url b; recorders := f (recorders b);
     next_recorder := next_recorder b; toBlob_pending := toBlob_pending b;
     supported_types := supported_types b; default_type := default_type b;
     context_2d := context_2d b |}.

Definition set_toBlob_pending (f : list ToBlobRequest → list ToBlobRequest)
    (b : Browser) : Browser :=
  {| live_tracks := live_tracks b; streams := streams b;
     next_track := next_track b; gum_pending := gum_pending b;
     next_request := next_request b; object_urls := object_urls b;
     next_url := next_url b; recorders := recorders b;
     next_recorder := next_recorder b; toBlob_pending := f (toBlob_pending b);
     supported_types := supported_types b; default_type := default_type b;
     context_2d := context_2d b |}.

(** [track.stop()]: the track ends; stopping an ended track does nothing. *)
Definition track_stop (t : nat) (b : Browser) : Browser :=
  set_live_tracks (λ live, live ∖ {[t]}) b.

(** [stream.getTracks().forEach(track => track.stop())] *)
Definition stop_all_tracks (ms : MediaStream) (b : Browser) : Browser :=
  foldl (λ b t, track_stop t b) b (stream_tracks ms).

(** [navigator.mediaDevices.getUserMedia(constraints)]: a pending promise. *)
Definition getUserMedia (c : MediaStreamConstraints) (b : Browser) : Browser :=
  {| live_tracks := live_tracks b; streams := streams b;
     next_track := next_track b;
     gum_pending := <[next_request b := c]> (gum_pending b);
     next_request := S (next_request b); object_urls := object_urls b;
     next_url := next_url b; recorders := recorders b;
     next_recorder := next_recorder b; toBlob_pending := toBlob_pending b;
     supported_types := supported_types b; default_type := default_type b;
     context_2d := context_2d b |}.

(** The device answers a request: a fresh stream with one live video track,
    and one live audio track when audio was asked for, at the frame size
    [w] x [h] the device settled on. *)
Definition open_stream (c : MediaStreamConstraints) (w h : nat) (b : Browser)
    : MediaStream * Browser :=
  let t := next_track b in
  let tracks := if c_audio c then [t; S t] else [t] in
  let ms := {| stream_id := length (streams b); stream_tracks := tracks;
               frame_width := w; frame_height := h |} in
  (ms,
   {| live_tracks := list_to_set tracks ∪ live_tracks b;
      streams := streams b ++ [ms];
      next_track := t + length tracks; gum_pending := gum_pending b;
      next_request := next_request b; object_urls := object_urls b;
      next_url := next_url b; recorders := recorders b;
      next_recorder := next_recorder b; toBlob_pending := toBlob_pending b;
      supported_types := supported_types b; default_type := default_type b;
      context_2d := context_2d b |}).

(** [URL.createObjectURL(blob)] *)
Definition createObjectURL (blob : Blob) (b : Browser) : nat * Browser :=
  (next_url b,
   {| live_tracks := live_tracks b; streams := streams b;
      next_track := next_track b; gum_pending := gum_pending b;
      next_request := next_request b;
      object_urls := <[next_url b := blob]> (object_urls b);
      next_url := S (next_url b); recorders := recorders b;
      next_recorder := next_recorder b; toBlob_pending := toBlob_pending b;
      supported_types := supported_types b; default_type := default_type b;
      context_2d := context_2d b |}).

(** [URL.revokeObjectURL(url)] *)
Definition revokeObjectURL (url : nat) (b : Browser) : Browser :=
  set_object_urls (delete url) b.

(** [new MediaRecorder(stream)]: the browser picks its default codec. *)
Definition new_MediaRecorder (ms : MediaStream) (b : Browser) : nat * Browser :=
  (next_recorder b,
   {| live_tracks := live_tracks b; streams := streams b;
      next_track := next_track b; gum_pending := gum_pending b;
      next_request := next_request b; object_urls := object_urls b;
      next_url := next_url b;
      recorders := <[next_recorder b :=
                       {| rec_stream := ms; rec_mimeType := default_type b;
                          rec_state := inactive; rec_stopping := false |}]>
                     (recorders b);
      next_recorder := S (next_recorder b);
      toBlob_pending := toBlob_pending b;
      supported_types := supported_types b; default_type := default_type b;
      context_2d := context_2d b |}).

(** [new MediaRecorder(stream, { mimeType })]: throws (here: [None]) when
    the browser cannot record that type. *)
Definition new_MediaRecorder_with (ms : MediaStream) (mimeType : string)
    (b : Browser) : option (nat * Browser) :=
  if bool_decide (mimeType ∈ supported_types b) then
    let '(r, b') := new_MediaRecorder ms b in
    Some (r, set_recorders
               (alter (λ m, {| rec_stream := rec_stream m; rec_mimeType := mimeType;
                               rec_state := rec_state m;
                               rec_stopping := rec_stopping m |}) r) b')
  else None.

(** [recorder.start()] *)
Definition recorder_start (r : nat) (b : Browser) : Browser :=
  set_recorders
    (alter (λ m, {| rec_stream := rec_stream m; rec_mimeType := rec_mimeType m;
                    rec_state := recording; rec_stopping := rec_stopping m |}) r) b.

(** [recorder.stop()]: the recorder turns inactive at once; its last data
    and the "stop" event follow as events.  On an inactive recorder it does
    nothing. *)
Definition recorder_stop (r : nat) (b : Browser) : Browser :=
  set_recorders
    (alter (λ m, match rec_state m with
                 | recording =>
                     {| rec_stream := rec_stream m; rec_mimeType := rec_mimeType m;
                        rec_state := inactive; rec_stopping := true |}
                 | inactive => m
                 end) r) b.

(** Every track of the recorded stream has ended: the browser stops the
    recorder by itself. *)
Definition stream_live (b : Browser) (ms : MediaStream) : bool :=
  existsb (λ t, bool_decide (t ∈ live_tracks b)) (stream_tracks ms).

(** The "stop" event has been dispatched. *)
Definition recorder_stopped (r : nat) (b : Browser) : Browser :=
  set_recorders
    (alter (λ m, {| rec_stream := rec_stream m; rec_mimeType := rec_mimeType m;
                    rec_state := rec_state m; rec_stopping := false |}) r) b.

(** ** The component *)

(** The [useState] cells. *)
Record State := {
  mode : CaptureMode;
  facingMode : FacingMode;
  stream : option MediaStream;
  isRecording : bool;
  preview : option nat;
  previewBlob : option Blob
}.

(** The [useRef] cells. *)
Record Refs := {
  videoRef : option HTMLVideoElement;
  mediaRecorderRef : option nat;
  recordedChunksRef : list Blob
}.

(** The [useEffect] cell: the dependencies [[facingMode, mode]] of the effect
    that ran last, and the [stream] its cleanup closed over. *)
Record EffectCell := {
  effect_deps : FacingMode * CaptureMode;
  effect_stream : option MediaStream
}.

Record System := {
  st : State;
  refs : Refs;
  hook : EffectCell;
  mounted : bool;
  browser : Browser;
  log : list Effect
}.

Definition with_st (f : State → State) (s : System) : System :=
  {| st := f (st s); refs := refs s; hook := hook s; mounted := mounted s;
     browser := browser s; log := log s |}.

Definition with_refs (f : Refs → Refs) (s : System) : System :=
  {| st := st s; refs := f (refs s); hook := hook s; mounted := mounted s;
     browser := browser s; log := log s |}.

Definition with_hook (h : EffectCell) (s : System) : System :=
  {| st := st s; refs := refs s; hook := h; mounted := mounted s;
     browser := browser s; log := log s |}.

Definition with_mounted (m : bool) (s : System) : System :=
  {| st := st s; refs := refs s; hook := hook s; mounted := m;
     browser := browser s; log := log s |}.

Definition with_browser (f : Browser → Browser) (s : System) : System :=
  {| st := st s; refs := refs s; hook := hook s; mounted := mounted s;
     browser := f (browser s); log := log s |}.

Definition emit (e : Effect) (s : System) : System :=
  {| st := st s; refs := refs s; hook := hook s; mounted := mounted s;
     browser := browser s; log := log s ++ [e] |}.

Definition setMode (m : CaptureMode) : System → System :=
  with_st (λ v, {| mode := m; facingMode := facingMode v; stream := stream v;
                   isRecording := isRecording v; preview := preview v;
                   previewBlob := previewBlob v |}).

Definition setFacingMode (f : FacingMode → FacingMode) : System → System :=
  with_st (λ v, {| mode := mode v; facingMode := f (facingMode v);
                   stream := stream v; isRecording := isRecording v;
                   preview := preview v; previewBlob := previewBlob v |}).

Definition setStream (ms : option MediaStream) : System → System :=
  with_st (λ v, {| mode := mode v; facingMode := facingMode v; stream := ms;
                   isRecording := isRecording v; preview := preview v;
                   previewBlob := previewBlob v |}).

Definition setIsRecording (r : bool) : System → System :=
  with_st (λ v, {| mode := mode v; facingMode := facingMode v;
                   stream := stream v; isRecording := r; preview := preview v;
                   previewBlob := previewBlob v |}).

Definition setPreview (p : option nat) : System → System :=
  with_st (λ v, {| mode := mode v; facingMode := facingMode v;
                   stream := stream v; isRecording := isRecording v;
                   preview := p; previewBlob := previewBlob v |}).

Definition setPreviewBlob (p : option Blob) : System → System :=
  with_st (λ v, {| mode := mode v; facingMode := facingMode v;
                   stream := stream v; isRecording := isRecording v;
                   preview := preview v; previewBlob := p |}).

Definition set_videoRef (el : option HTMLVideoElement) : System → System :=
  with_refs (λ r, {| videoRef := el; mediaRecorderRef := mediaRecorderRef r;
                     recordedChunksRef := recordedChunksRef r |}).

Definition set_mediaRecorderRef (m : option nat) : System → System :=
  with_refs (λ r, {| videoRef := videoRef r; mediaRecorderRef := m;
                     recordedChunksRef := recordedChunksRef r |}).

Definition set_recordedChunksRef (l : list Blob) : System → System :=
  with_refs (λ r, {| videoRef := videoRef r;
                     mediaRecorderRef := mediaRecorderRef r;
                     recordedChunksRef := l |}).

(** ** Hooks *)

(** [setupCamera], up to its [await].  [stream] is the value the closure
    captured: the one of the render the callback belongs to. *)
Definition setupCamera (currentFacingMode : FacingMode)
    (currentMode : CaptureMode) (s : System) : System :=
  let s1 := match stream (st s) with
            | Some ms => with_browser (stop_all_tracks ms) s
            | None => s
            end in
  let constraints :=
    {| c_facingMode := currentFacingMode;
       c_width_ideal := 1920; c_height_ideal := 1080;
       c_audio := bool_decide (currentMode = video) |} in
  with_browser (getUserMedia constraints) s1.

(** [setupCamera] after the [await], when the promise resolved. *)
Definition setupCamera_resolved (mediaStream : MediaStream) (s : System) : System :=
  let s1 := setStream (Some mediaStream) s in
  match videoRef (refs s1) with
  | Some _ => set_videoRef (Some {| srcObject := Some mediaStream |}) s1
  | None => s1
  end.

(** [setupCamera]'s [catch] block. *)
Definition setupCamera_rejected (s : System) : System :=
  emit onClose
    (emit (alert "Could not access camera. Please check permissions.")
       (emit (console_error "Error accessing camera:") s)).

(** The function returned by the effect; it stops the [stream] of the render
    in which the effect ran. *)
Definition effect_cleanup (s : System) : System :=
  match effect_stream (hook s) with
  | Some ms => with_browser (stop_all_tracks ms) s
  | None => s
  end.

(** The effect body, run in the current render. *)
Definition run_effect (s : System) : System :=
  with_hook {| effect_deps := (facingMode (st s), mode (st s));
               effect_stream := stream (st s) |}
    (setupCamera (facingMode (st s)) (mode (st s)) s).

(** The JSX: the [<video ref={videoRef}>] element exists exactly while there
    is no preview; a newly created element has no [srcObject]. *)
Definition render_video (s : System) : System :=
  match preview (st s), videoRef (refs s) with
  | Some _, _ => set_videoRef None s
  | None, None => set_videoRef (Some {| srcObject := None |}) s
  | None, Some _ => s
  end.

(** React's commit after a render: refs are attached, then the effect is
    re-run (old cleanup first) when [[facingMode, mode]] changed. *)
Definition commit (s : System) : System :=
  let s1 := render_video s in
  if bool_decide (effect_deps (hook s1) = (facingMode (st s1), mode (st s1)))
  then s1
  else run_effect (effect_cleanup s1).

Definition initial_state : State :=
  {| mode := photo; facingMode := environment; stream := None;
     isRecording := false; preview := None; previewBlob := None |}.

(** First render and first run of the effect. *)
Definition mount (b : Browser) : System :=
  run_effect
    (render_video
       {| st := initial_state;
          refs := {| videoRef := None; mediaRecorderRef := None;
                     recordedChunksRef := [] |};
          hook := {| effect_deps := (environment, photo); effect_stream := None |};
          mounted := true; browser := b; log := [] |}).

(** Unmounting runs the last effect's cleanup and detaches the refs. *)
Definition unmount (s : System) : System :=
  with_mounted false (set_videoRef None (effect_cleanup s)).

(** ** Handlers *)

Definition handleFlipCamera : System → System :=
  setFacingMode (λ prev, if bool_decide (prev = user) then environment else user).

Definition handleTakePicture (s : System) : System :=
  match videoRef (refs s) with
  | Some el =>
      if context_2d (browser s) then
        with_browser
          (set_toBlob_pending
             (λ q, q ++ [{| canvas_width := videoWidth el;
                            canvas_height := videoHeight el;
                            drawn_from := srcObject el;
                            tb_type := "image/jpeg";
                            tb_quality := 0.95%Q |}])) s
      else s
  | None => s
  end.

(** What the browser passes to the [toBlob] callback: nothing for a canvas
    without pixels or when encoding fails, else the encoded bytes under the
    requested type. *)
Definition toBlob_result (req : ToBlobRequest) (encoded : option (list Byte.byte))
    : option Blob :=
  if (canvas_width req =? 0) || (canvas_height req =? 0) then None
  else (λ d, {| blob_data := d; blob_type := tb_type req |}) <$> encoded.

(** The callback given to [canvas.toBlob]. *)
Definition toBlob_callback (blob : option Blob) (s : System) : System :=
  match blob with
  | Some b =>
      let '(url, br) := createObjectURL b (browser s) in
      setPreviewBlob (Some b) (setPreview (Some url) (with_browser (λ _, br) s))
  | None => s
  end.

Definition handleStartRecording (s : System) : System :=
  match stream (st s) with
  | Some ms =>
      let s1 := set_recordedChunksRef [] s in
      let options := "video/webm; codecs=vp9" in
      let '(r, s2) :=
        match new_MediaRecorder_with ms options (browser s1) with
        | Some (r, br) => (r, with_browser (λ _, br) s1)
        | None =>
            let s1' :=
              emit (console_error
                      "Error creating MediaRecorder with vp9, falling back:") s1 in
            let '(r, br) := new_MediaRecorder ms (browser s1') in
            (r, with_browser (λ _, br) s1')
        end in
      let s3 := set_mediaRecorderRef (Some r) s2 in
      setIsRecording true (with_browser (recorder_start r) s3)
  | None => s
  end.

(** [mediaRecorderRef.current.ondataavailable] *)
Definition ondataavailable (data : Blob) (s : System) : System :=
  if 0 <? blob_size data then
    set_recordedChunksRef (recordedChunksRef (refs s) ++ [data]) s
  else s.

(** [mediaRecorderRef.current.onstop] *)
Definition onstop (s : System) : System :=
  let blob := new_Blob (recordedChunksRef (refs s)) "video/webm" in
  let '(url, br) := createObjectURL blob (browser s) in
  setPreviewBlob (Some blob) (setPreview (Some url) (with_browser (λ _, br) s)).

Definition handleStopRecording (s : System) : System :=
  match mediaRecorderRef (refs s) with
  | Some r => setIsRecording false (with_browser (recorder_stop r) s)
  | None => s
  end.

Definition handleShutterClick (s : System) : System :=
  match mode (st s) with
  | photo => handleTakePicture s
  | video =>
      if isRecording (st s) then handleStopRecording s
      else handleStartRecording s
  end.

Definition handleRetake (s : System) : System :=
  let s1 := setPreviewBlob None (setPreview None s) in
  match preview (st s) with
  | Some url => with_browser (revokeObjectURL url) s1
  | None => s1
  end.

Definition handleConfirm (s : System) : System :=
  match previewBlob (st s) with
  | Some blob => emit (onCapture blob (blob_type blob)) s
  | None => s
  end.

(** The close button: [onClick={onClose}]. *)
Definition handleClose (s : System) : System := emit onClose s.

(** ** The event loop *)

Inductive Event :=
| ClickClose | ClickFlip | ClickPhoto | ClickVideo
| ClickShutter | ClickRetake | ClickConfirm
| Resolved (request : nat) (w h : nat)      (* getUserMedia resolves *)
| Rejected (request : nat)                  (* getUserMedia rejects *)
| Encoded (bytes : option (list Byte.byte)) (* the oldest toBlob job ends *)
| DataAvailable (recorder : nat) (data : Blob)
| TracksEnded (recorder : nat)
| Stopped (recorder : nat)                  (* the recorder's "stop" event *)
| Unmount.

(** The shutter, PHOTO, VIDEO and flip buttons are rendered only without a
    preview; Retake and Confirm only with one; the close button always. *)
Definition live_controls (s : System) : bool :=
  match preview (st s) with Some _ => false | None => true end.

(** One turn of the event loop; [None] when the event cannot happen (the
    button is not on screen, the promise is not pending, ...).  The component
    is followed until it is unmounted. *)
Definition step (e : Event) (s : System) : option System :=
  if negb (mounted s) then None else
  match e with
  | ClickClose => Some (commit (handleClose s))
  | ClickFlip =>
      if live_controls s then Some (commit (handleFlipCamera s)) else None
  | ClickPhoto =>
      if live_controls s then Some (commit (setMode photo s)) else None
  | ClickVideo =>
      if live_controls s then Some (commit (setMode video s)) else None
  | ClickShutter =>
      if live_controls s then Some (commit (handleShutterClick s)) else None
  | ClickRetake =>
      if live_controls s then None else Some (commit (handleRetake s))
  | ClickConfirm =>
      if live_controls s then None else Some (commit (handleConfirm s))
  | Resolved r w h =>
      match gum_pending (browser s) !! r with
      | Some c =>
          let '(ms, br) :=
            open_stream c w h (set_gum_pending (delete r) (browser s)) in
          Some (commit (setupCamera_resolved ms (with_browser (λ _, br) s)))
      | None => None
      end
  | Rejected r =>
      match gum_pending (browser s) !! r with
      | Some _ =>
          Some (commit (setupCamera_rejected
                          (with_browser (set_gum_pending (delete r)) s)))
      | None => None
      end
  | Encoded bytes =>
      match toBlob_pending (browser s) with
      | req :: rest =>
          Some (commit (toBlob_callback (toBlob_result req bytes)
                          (with_browser (set_toBlob_pending (λ _, rest)) s)))
      | [] => None
      end
  | DataAvailable r data =>
      match recorders (browser s) !! r with
      | Some m =>
          match rec_state m, rec_stopping m with
          | inactive, false => None
          | _, _ => Some (ondataavailable data s)
          end
      | None => None
      end
  | TracksEnded r =>
      match recorders (browser s) !! r with
      | Some m =>
          match rec_state m with
          | recording =>
              if stream_live (browser s) (rec_stream m) then None
              else Some (with_browser (recorder_stop r) s)
          | inactive => None
          end
      | None => None
      end
  | Stopped r =>
      match recorders (browser s) !! r with
      | Some m =>
          if rec_stopping m
          then Some (commit (onstop (with_browser (recorder_stopped r) s)))
          else None
      | None => None
      end
  | Unmount => Some (unmount s)
  end.

Fixpoint run (evs : list Event) (s : System) : option System :=
  match evs with
  | [] => Some s
  | e :: evs =>
      match step e s with
      | Some s' => run evs s'
      | None => None
      end
  end.

(** A [getUserMedia] promise still pending when the component is unmounted
    settles later, and the rest of [setupCamera] runs all the same: nothing
    cancels it.  No render follows, and [videoRef.current] is null by
    then. *)
Definition settle_after_unmount (e : Event) (s : System) : option System :=
  if mounted s then None else
  match e with
  | Resolved r w h =>
      match gum_pending (browser s) !! r with
      | Some c =>
          let '(ms, br) :=
            open_stream c w h (set_gum_pending (delete r) (browser s)) in
          Some (setupCamera_resolved ms (with_browser (λ _, br) s))
      | None => None
      end
  | Rejected r =>
      match gum_pending (browser s) !! r with
      | Some _ =>
          Some (setupCamera_rejected
                  (with_browser (set_gum_pending (delete r)) s))
      | None => None
      end
  | _ => None
  end.

(** ** The session as the presentation layer sees it *)

(** The component keeps no variable for the state of the session; the state
    is read off its cells and the browser.  The session is closed once the
    component has called one of its two props (its parent then removes it)
    or has been unmounted; a preview is on screen while [preview] is set;
    a recording runs while [isRecording] is set; a snapshot is in flight
    while a [toBlob] job is queued; otherwise the session streams when the
    held stream has a live track and is initializing when it has none. *)
Inductive SessionState :=
| Initializing | Streaming | CapturingPhoto | Recording | Previewing | Closed.

(** The component ends its session by calling one of its two props. *)
Definition terminal (e : Effect) : bool :=
  match e with
  | onClose | onCapture _ _ => true
  | _ => false
  end.

Definition is_onClose (e : Effect) : bool :=
  match e with onClose => true | _ => false end.

Definition is_onCapture (e : Effect) : bool :=
  match e with onCapture _ _ => true | _ => false end.

Definition holds_live_stream (s : System) : bool :=
  match stream (st s) with
  | Some ms => stream_live (browser s) ms
  | None => false
  end.

Definition session_state (s : System) : SessionState :=
  if existsb terminal (log s) || negb (mounted s) then Closed
  else match preview (st s) with
       | Some _ => Previewing
       | None =>
           if isRecording (st s) then Recording
           else match toBlob_pending (browser s) with
                | _ :: _ => CapturingPhoto
                | [] => if holds_live_stream s then Streaming else Initializing
                end
       end.

(** Streams with a track still live. *)
Definition open_handles (b : Browser) : list MediaStream :=
  filter (λ ms, Is_true (stream_live b ms)) (streams b).

(** Recorders still recording. *)
Definition recorder_open (b : Browser) (r : nat) : bool :=
  match recorders b !! r with
  | Some m => match rec_state m with recording => true | inactive => false end
  | None => false
  end.

(** A browser that has handed out nothing yet. *)
Definition fresh_browser (types : list string) (default : string) : Browser :=
  {| live_tracks := ∅; streams := []; next_track := 0; gum_pending := ∅;
     next_request := 0; object_urls := ∅; next_url := 0; recorders := ∅;
     next_recorder := 0; toBlob_pending := []; supported_types := types;
     default_type := default; context_2d := true |}.

Definition chrome : Browser :=
  fresh_browser ["video/webm; codecs=vp9"; "video/webm"] "video/webm;codecs=vp8".

Definition safari : Browser := fresh_browser ["video/mp4"] "video/mp4".

(** How often the log holds an effect of some kind. *)
Definition calls (p : Effect → bool) (l : list Effect) : nat :=
  length (List.filter p l).

(** The retained chunks are all non-empty. *)
Definition chunks_nonempty (s : System) : Prop :=
  Forall (λ c, 0 < blob_size c) (recordedChunksRef (refs s)).

(** ** Sessions without overlapping acquisitions *)

(** The events that make the effect run again.  A serial session accepts
    them only while no [getUserMedia] request is pending. *)
Definition starts_acquisition (e : Event) : bool :=
  match e with
  | ClickFlip | ClickPhoto | ClickVideo => true
  | _ => false
  end.

Definition serial_step (e : Event) (s : System) : option System :=
  if starts_acquisition e && negb (bool_decide (gum_pending (browser s) = ∅))
  then None else step e s.

Fixpoint serial_run (evs : list Event) (s : System) : option System :=
  match evs with
  | [] => Some s
  | e :: evs =>
      match serial_step e s with
      | Some s' => serial_run evs s'
      | None => None
      end
  end.

(** The effect has run for the current [[facingMode, mode]]. *)
Definition stable (s : System) : Prop :=
  effect_deps (hook s) = (facingMode (st s), mode (st s)).

(** The part of the system the camera invariant speaks about. *)
Record Cam := {
  cam_stream : option MediaStream;
  cam_live : gset nat;
  cam_pending : gmap nat MediaStreamConstraints;
  cam_streams : list MediaStream;
  cam_next_track : nat;
  cam_next_request : nat
}.

Definition cam (s : System) : Cam :=
  {| cam_stream := stream (st s);
     cam_live := live_tracks (browser s);
     cam_pending := gum_pending (browser s);
     cam_streams := streams (browser s);
     cam_next_track := next_track (browser s);
     cam_next_request := next_request (browser s) |}.

(** Track ids are fresh, no two streams share a track, the held stream was
    handed out by the browser, and either nothing is pending and every live
    track belongs to the held stream, or one request is pending and no
    track is live. *)
Record cam_wf (c : Cam) : Prop := {
  wf_fresh : ∀ ms t, ms ∈ cam_streams c → t ∈ stream_tracks ms → t < cam_next_track c;
  wf_disjoint : ∀ ms1 ms2 t, ms1 ∈ cam_streams c → ms2 ∈ cam_streams c →
                  t ∈ stream_tracks ms1 → t ∈ stream_tracks ms2 → ms1 = ms2;
  wf_held : ∀ ms, cam_stream c = Some ms → ms ∈ cam_streams c;
  wf_live : (cam_pending c = ∅
             ∧ ∀ t, t ∈ cam_live c →
                 ∃ ms, cam_stream c = Some ms ∧ t ∈ stream_tracks ms)
            ∨ (cam_live c = ∅ ∧ ∃ r k, cam_pending c = {[r := k]})
}.

(** [c'] is [c] with some tracks stopped. *)
Definition shrinks (c c' : Cam) : Prop :=
  cam_stream c' = cam_stream c ∧ cam_live c' ⊆ cam_live c
  ∧ cam_pending c' = cam_pending c ∧ cam_streams c' = cam_streams c
  ∧ cam_next_track c' = cam_next_track c.

Definition camera_inv (s : System) : Prop := stable s ∧ cam_wf (cam s).

(** ** What is on screen *)

(** The main element of the JSX: the captured artifact in an [<img>] when
    [previewBlob?.type.startsWith('image/')], in a [<video controls>]
    otherwise, and the live [<video ref={videoRef}>] without a preview. *)
Inductive MainElement :=
| img (src : nat)
| video_player (src : nat)
| live_video.

Definition main_element (s : System) : MainElement :=
  match preview (st s) with
  | Some url =>
      if match previewBlob (st s) with
         | Some blob => String.prefix "image/" (blob_type blob)
         | None => false
         end
      then img url else video_player url
  | None => live_video
  end.

(** The refs agree with the JSX: [videoRef] is attached exactly when the
    live [<video>] is rendered. *)
Definition rendered (s : System) : Prop :=
  match preview (st s), videoRef (refs s) with
  | Some _, None | None, Some _ => True
  | _, _ => False
  end.

(** ** Handlers by event *)

(** [handles e s x]: event [e] can happen in [s], and its handler leaves [x]
    for React to commit. *)
Inductive handles : Event → System → System → Prop :=
| handles_close s :
    handles ClickClose s (handleClose s)
| handles_flip s :
    preview (st s) = None → handles ClickFlip s (handleFlipCamera s)
| handles_photo s :
    preview (st s) = None → handles ClickPhoto s (setMode photo s)
| handles_video s :
    preview (st s) = None → handles ClickVideo s (setMode video s)
| handles_shutter s :
    preview (st s) = None → handles ClickShutter s (handleShutterClick s)
| handles_retake s url :
    preview (st s) = Some url → handles ClickRetake s (handleRetake s)
| handles_confirm s url :
    preview (st s) = Some url → handles ClickConfirm s (handleConfirm s)
| handles_resolved s r c w h ms br :
    gum_pending (browser s) !! r = Some c →
    open_stream c w h (set_gum_pending (delete r) (browser s)) = (ms, br) →
    handles (Resolved r w h) s
      (setupCamera_resolved ms (with_browser (λ _, br) s))
| handles_rejected s r c :
    gum_pending (browser s) !! r = Some c →
    handles (Rejected r) s
      (setupCamera_rejected (with_browser (set_gum_pending (delete r)) s))
| handles_encoded s req rest bytes :
    toBlob_pending (browser s) = req :: rest →
    handles (Encoded bytes) s
      (toBlob_callback (toBlob_result req bytes)
         (with_browser (set_toBlob_pending (λ _, rest)) s))
| handles_stopped s r m :
    recorders (browser s) !! r = Some m → rec_stopping m = true →
    handles (Stopped r) s (onstop (with_browser (recorder_stopped r) s)).

(** ** Counting *)

Definition is_alert (e : Effect) : bool :=
  match e with alert _ => true | _ => false end.

Definition is_close_click (e : Event) : bool :=
  match e with ClickClose => true | _ => false end.

Definition is_rejection (e : Event) : bool :=
  match e with Rejected _ => true | _ => false end.

Definition is_confirm_click (e : Event) : bool :=
  match e with ClickConfirm => true | _ => false end.

Definition occurrences (p : Event → bool) (evs : list Event) : nat :=
  length (List.filter p evs).

(** ** Invariants of a session *)

(** [preview] and [previewBlob] are set together, and the preview URL is
    registered for the stored blob. *)
Definition preview_registered (s : System) : Prop :=
  match preview (st s), previewBlob (st s) with
  | Some url, Some blob => object_urls (browser s) !! url = Some blob
  | None, None => True
  | _, _ => False
  end.

(** Nothing is left for a commit to do: the effect has run for the current
    dependencies and the refs agree with the JSX. *)
Definition settled (s : System) : Prop := stable s ∧ rendered s.

(** The PHOTO and VIDEO buttons. *)
Definition click_mode (m : CaptureMode) : Event :=
  match m with photo => ClickPhoto | video => ClickVideo end.

(** The other camera. *)
Definition flipped (f : FacingMode) : FacingMode :=
  match f with user => environment | environment => user end.

(** The chunks of a list delivered one after the other. *)
Definition deliver (ds : list Blob) (s : System) : System :=
  foldl (λ s data, ondataavailable data s) s ds.

(** While [isRecording] is set there is a recorder in [mediaRecorderRef],
    and the ref only ever names a recorder the browser knows. *)
Definition recorder_known (s : System) : Prop :=
  (isRecording (st s) = true → is_Some (mediaRecorderRef (refs s)))
  ∧ ∀ r, mediaRecorderRef (refs s) = Some r → is_Some (recorders (browser s) !! r).

(** An [onCapture] call passes the blob's own type, "image/jpeg" or
    "video/webm". *)
Definition captured_ok (e : Effect) : Prop :=
  match e with
  | onCapture blob mimeType =>
      mimeType = blob_type blob
      ∧ (mimeType = "image/jpeg" ∨ mimeType = "video/webm")
  | _ => True
  end.

(** Queued snapshots ask for JPEG, the stored artifact is a JPEG or a WebM,
    and so was every artifact handed over. *)
Definition types_ok (s : System) : Prop :=
  Forall (λ req, tb_type req = "image/jpeg") (toBlob_pending (browser s))
  ∧ (∀ blob, previewBlob (st s) = Some blob →
       blob_type blob = "image/jpeg" ∨ blob_type blob = "video/webm")
  ∧ Forall captured_ok (log s).

(** Track ids in use are below [next_track], and every track of the stream
    the effect's cleanup closed over has been stopped. *)
Definition tracks_accounted (s : System) : Prop :=
  (∀ t, t ∈ live_tracks (browser s) → t < next_track (browser s))
  ∧ (∀ ms t, stream (st s) = Some ms → t ∈ stream_tracks ms →
       t < next_track (browser s))
  ∧ (∀ ms t, effect_stream (hook s) = Some ms → t ∈ stream_tracks ms →
       t < next_track (browser s) ∧ t ∉ live_tracks (browser s)).

(** ** Sample sessions *)

(** A render that shows the preview controls although no blob is stored. *)
Definition preview_without_blob : System :=
  commit (setPreview (Some 0) (mount chrome)).

(** A session on Chrome whose camera delivers 1280 x 720 frames. *)
Definition streaming_demo : System :=
  default (mount chrome) (run [Resolved 0 1280 720] (mount chrome)).

(** A photo session on Chrome that reached the preview. *)
Definition photo_preview_events : list Event :=
  [Resolved 0 1280 720; ClickShutter; Encoded (Some [Byte.xff; Byte.xd8])].

Definition jpeg_demo : Blob :=
  {| blob_data := [Byte.xff; Byte.xd8]; blob_type := "image/jpeg" |}.

Definition chunk (bytes : list Byte.byte) : Blob :=
  {| blob_data := bytes; blob_type := "video/webm; codecs=vp9" |}.

(** A session on Chrome that reached video mode, started a recording and
    received three chunks, the second of them empty. *)
Definition recording_events : list Event :=
  [Resolved 0 1280 720; ClickVideo; Resolved 1 640 480; ClickShutter;
   DataAvailable 0 (chunk [Byte.x1a; Byte.x45]);
   DataAvailable 0 (chunk []);
   DataAvailable 0 (chunk [Byte.xdf])].

Definition recording_demo : System :=
  default (mount chrome) (run recording_events (mount chrome)).

(** A session on a browser without vp9 that reached video mode. *)
Definition video_ready_events : list Event :=
  [Resolved 0 1280 720; ClickVideo; Resolved 1 640 480].

Definition safari_video_demo : System :=
  default (mount safari) (run video_ready_events (mount safari)).

(** The state of the photo session at its preview. *)
Definition photo_preview_demo : System :=
  default (mount chrome) (run photo_preview_events (mount chrome)).

(** Right after mounting, with VIDEO selected before the camera answered. *)
Definition video_waiting_demo : System :=
  default (mount chrome) (run [ClickVideo] (mount chrome)).

(** A browser whose canvas gives no 2D context. *)
Definition no_canvas_browser : Browser :=
  {| live_tracks := ∅; streams := []; next_track := 0; gum_pending := ∅;
     next_request := 0; object_urls := ∅; next_url := 0; recorders := ∅;
     next_recorder := 0; toBlob_pending := [];
     supported_types := ["video/webm; codecs=vp9"];
     default_type := "video/webm"; context_2d := false |}.

Definition no_canvas_demo : System :=
  Eval vm_compute in
  default (mount no_canvas_browser)
    (run [Resolved 0 1280 720] (mount no_canvas_browser)).

(** A session on Chrome in video mode, streaming again after a first
    recording was retaken: [recordedChunksRef] still holds its chunks. *)
Definition second_take_demo : System :=
  Eval vm_compute in
  default (mount chrome)
    (run (recording_events ++ [ClickShutter; Stopped 0; ClickRetake])
       (mount chrome)).

(** A video session on Chrome: one clip recorded and confirmed twice, then
    closed. *)
Definition confirmed_clip_events : list Event :=
  recording_events ++ [ClickShutter; Stopped 0; ClickConfirm; ClickConfirm; ClickClose].

(** The photo session after its confirm. *)
Definition confirmed_photo_demo : System :=
  Eval vm_compute in
  default (mount chrome)
    (run (photo_preview_events ++ [ClickConfirm]) (mount chrome)).

(** A session on Chrome that flipped the camera once, after the first
    stream had arrived. *)
Definition flipped_events : list Event :=
  [Resolved 0 1280 720; ClickFlip; Resolved 1 1280 720].

Definition flipped_demo : System :=
  Eval vm_compute in
  default (mount chrome) (serial_run flipped_events (mount chrome)).

Definition flipped_stream : MediaStream :=
  {| stream_id := 1; stream_tracks := [1];
     frame_width := 1280; frame_height := 720 |}.

(** * Properties *)

(** ** What each operation leaves alone *)

Lemma stop_all_tracks_live ms b :
  live_tracks (stop_all_tracks ms b) = live_tracks b ∖ list_to_set (stream_tracks ms).
Proof.
  unfold stop_all_tracks.
  revert b; induction (stream_tracks ms) as [|t ts IH]; intros b; simpl.
  - by rewrite difference_empty_L.
  - rewrite IH. simpl. apply set_eq. intros x.
    rewrite !elem_of_difference, elem_of_union, elem_of_singleton.
    tauto.
Qed.

Lemma stop_all_tracks_rest ms b :
  streams (stop_all_tracks ms b) = streams b
  ∧ gum_pending (stop_all_tracks ms b) = gum_pending b
  ∧ next_request (stop_all_tracks ms b) = next_request b
  ∧ object_urls (stop_all_tracks ms b) = object_urls b
  ∧ recorders (stop_all_tracks ms b) = recorders b
  ∧ toBlob_pending (stop_all_tracks ms b) = toBlob_pending b
  ∧ supported_types (stop_all_tracks ms b) = supported_types b
  ∧ context_2d (stop_all_tracks ms b) = context_2d b.
Proof.
  unfold stop_all_tracks.
  revert b; induction (stream_tracks ms) as [|t ts IH]; intros b; simpl.
  - done.
  - destruct (IH (track_stop t b)) as (-> & -> & -> & -> & -> & -> & -> & ->).
    done.
Qed.

Lemma stream_live_spec b ms :
  stream_live b ms = true ↔ ∃ t, t ∈ stream_tracks ms ∧ t ∈ live_tracks b.
Proof.
  unfold stream_live. rewrite existsb_exists. split.
  - intros (t & Hin & Ht). exists t. rewrite list_elem_of_In.
    split; [done|]. by apply bool_decide_eq_true in Ht.
  - intros (t & Hin & Ht). exists t. rewrite <- list_elem_of_In.
    split; [done|]. by apply bool_decide_eq_true.
Qed.

(** Stopping tracks never revives a stream. *)
Lemma stream_live_stop ms ms' b :
  stream_live b ms' = false → stream_live (stop_all_tracks ms b) ms' = false.
Proof.
  rewrite <- !not_true_iff_false, !stream_live_spec.
  intros H (t & Hin & Ht). apply H. exists t. split; [done|].
  rewrite stop_all_tracks_live in Ht.
  by apply elem_of_difference in Ht as [? _].
Qed.

(** Every track of a stream is ended once [stop_all_tracks] ran on it. *)
Lemma stream_live_stopped ms b : stream_live (stop_all_tracks ms b) ms = false.
Proof.
  rewrite <- not_true_iff_false, stream_live_spec.
  intros (t & Hin & Ht). rewrite stop_all_tracks_live in Ht.
  apply elem_of_difference in Ht as [_ Hn]. apply Hn.
  by apply elem_of_list_to_set.
Qed.

(** A commit re-renders and may re-run the effect; it touches neither the
    state cells, nor the recorder refs, nor the log, and in the browser
    only tracks and [getUserMedia] requests. *)
Lemma effect_cleanup_frame s :
  st (effect_cleanup s) = st s ∧ refs (effect_cleanup s) = refs s
  ∧ hook (effect_cleanup s) = hook s
  ∧ mounted (effect_cleanup s) = mounted s ∧ log (effect_cleanup s) = log s.
Proof. unfold effect_cleanup. by destruct (effect_stream (hook s)). Qed.

Lemma setupCamera_frame f m s :
  st (setupCamera f m s) = st s ∧ refs (setupCamera f m s) = refs s
  ∧ hook (setupCamera f m s) = hook s
  ∧ mounted (setupCamera f m s) = mounted s ∧ log (setupCamera f m s) = log s.
Proof. unfold setupCamera. by destruct (stream (st s)). Qed.

Lemma render_video_frame s :
  st (render_video s) = st s
  ∧ mediaRecorderRef (refs (render_video s)) = mediaRecorderRef (refs s)
  ∧ recordedChunksRef (refs (render_video s)) = recordedChunksRef (refs s)
  ∧ hook (render_video s) = hook s
  ∧ mounted (render_video s) = mounted s ∧ log (render_video s) = log s
  ∧ browser (render_video s) = browser s.
Proof.
  unfold render_video.
  by destruct (preview (st s)), (videoRef (refs s)).
Qed.

Lemma run_effect_frame s :
  st (run_effect s) = st s ∧ refs (run_effect s) = refs s
  ∧ mounted (run_effect s) = mounted s ∧ log (run_effect s) = log s.
Proof.
  unfold run_effect, with_hook; cbn [st refs mounted log].
  by destruct (setupCamera_frame (facingMode (st s)) (mode (st s)) s)
    as (-> & -> & _ & -> & ->).
Qed.

Lemma commit_frame s :
  st (commit s) = st s
  ∧ mediaRecorderRef (refs (commit s)) = mediaRecorderRef (refs s)
  ∧ recordedChunksRef (refs (commit s)) = recordedChunksRef (refs s)
  ∧ mounted (commit s) = mounted s ∧ log (commit s) = log s.
Proof.
  destruct (render_video_frame s) as (Hst & Hr & Hc & Hh & Hm & Hl & Hb).
  unfold commit. case_bool_decide; [done|].
  destruct (run_effect_frame (effect_cleanup (render_video s)))
    as (-> & -> & -> & ->).
  by destruct (effect_cleanup_frame (render_video s)) as (-> & -> & _ & -> & ->).
Qed.

Lemma effect_cleanup_browser s :
  streams (browser (effect_cleanup s)) = streams (browser s)
  ∧ object_urls (browser (effect_cleanup s)) = object_urls (browser s)
  ∧ recorders (browser (effect_cleanup s)) = recorders (browser s)
  ∧ toBlob_pending (browser (effect_cleanup s)) = toBlob_pending (browser s)
  ∧ live_tracks (browser (effect_cleanup s)) ⊆ live_tracks (browser s).
Proof.
  unfold effect_cleanup. destruct (effect_stream (hook s)) as [ms|]; [|done].
  simpl. destruct (stop_all_tracks_rest ms (browser s))
    as (-> & _ & _ & -> & -> & -> & _ & _).
  rewrite stop_all_tracks_live. repeat split. apply subseteq_difference_l. done.
Qed.

Lemma setupCamera_browser f m s :
  streams (browser (setupCamera f m s)) = streams (browser s)
  ∧ object_urls (browser (setupCamera f m s)) = object_urls (browser s)
  ∧ recorders (browser (setupCamera f m s)) = recorders (browser s)
  ∧ toBlob_pending (browser (setupCamera f m s)) = toBlob_pending (browser s)
  ∧ live_tracks (browser (setupCamera f m s)) ⊆ live_tracks (browser s).
Proof.
  unfold setupCamera. destruct (stream (st s)) as [ms|]; [|done].
  simpl. destruct (stop_all_tracks_rest ms (browser s))
    as (-> & _ & _ & -> & -> & -> & _ & _).
  rewrite stop_all_tracks_live. repeat split. apply subseteq_difference_l. done.
Qed.

Lemma commit_browser s :
  streams (browser (commit s)) = streams (browser s)
  ∧ object_urls (browser (commit s)) = object_urls (browser s)
  ∧ recorders (browser (commit s)) = recorders (browser s)
  ∧ toBlob_pending (browser (commit s)) = toBlob_pending (browser s)
  ∧ live_tracks (browser (commit s)) ⊆ live_tracks (browser s).
Proof.
  destruct (render_video_frame s) as (Hst & Hr & Hc & Hh & Hm & Hl & Hb).
  unfold commit. case_bool_decide; [by rewrite Hb|].
  unfold run_effect, with_hook; cbn [browser].
  destruct (setupCamera_browser
              (facingMode (st (effect_cleanup (render_video s))))
              (mode (st (effect_cleanup (render_video s))))
              (effect_cleanup (render_video s))) as (-> & -> & -> & -> & H1).
  destruct (effect_cleanup_browser (render_video s)) as (-> & -> & -> & -> & H2).
  rewrite Hb in *. repeat split. by etrans.
Qed.

Lemma stream_live_mono b b' ms :
  live_tracks b' ⊆ live_tracks b →
  stream_live b ms = false → stream_live b' ms = false.
Proof.
  intros Hsub. rewrite <- !not_true_iff_false, !stream_live_spec.
  intros H (t & Hin & Ht). apply H. exists t. split; [done|]. by apply Hsub.
Qed.

Lemma commit_holds_live s :
  holds_live_stream s = false → holds_live_stream (commit s) = false.
Proof.
  unfold holds_live_stream.
  destruct (commit_frame s) as (-> & _).
  destruct (stream (st s)) as [ms|]; [|done].
  apply stream_live_mono. apply commit_browser.
Qed.


(** ** Confirming *)

(** C10: when no captured artifact is stored ([previewBlob] is null),
    confirming does nothing at all: the handler returns the system as it
    was, so [onCapture] is not called, and the click leaves every state cell
    and the log of callbacks unchanged. *)
Theorem confirm_without_artifact_is_noop (s : System) :
  previewBlob (st s) = None →
  handleConfirm s = s
  ∧ ∀ s', step ClickConfirm s = Some s' → st s' = st s ∧ log s' = log s.
Proof.
  intros Hnone. unfold step, handleConfirm. rewrite Hnone. split; [done|].
  intros s' Hstep.
  destruct (mounted s); [|done]. simpl in Hstep.
  destruct (live_controls s); [done|]. simplify_eq.
  by destruct (commit_frame s) as (-> & _ & _ & _ & ->).
Qed.

Lemma confirm_without_artifact_is_noop_witness :
  previewBlob (st preview_without_blob) = None
  ∧ handleConfirm preview_without_blob = preview_without_blob
  ∧ ∀ s', step ClickConfirm preview_without_blob = Some s' →
          st s' = st preview_without_blob ∧ log s' = log preview_without_blob.
Proof.
  split; [reflexivity|].
  apply (confirm_without_artifact_is_noop preview_without_blob). reflexivity.
Defined.

(** ** Recording *)

Lemma onstop_artifact (s : System) :
  previewBlob (st (onstop s))
    = Some (new_Blob (recordedChunksRef (refs s)) "video/webm")
  ∧ preview (st (onstop s)) = Some (next_url (browser s))
  ∧ mounted (onstop s) = mounted s ∧ log (onstop s) = log s.
Proof. done. Qed.

(** C5: stopping a recording (the shutter pressed while recording, then the
    recorder's "stop" event) stores as artifact the bytes of the retained
    chunks, concatenated in order, under the type "video/webm"; with no
    retained chunk the artifact has length zero. *)
Theorem stop_recording_concatenates_chunks (s : System) (r : nat) (m : MediaRecorder) :
  mounted s = true → preview (st s) = None →
  mode (st s) = video → isRecording (st s) = true →
  mediaRecorderRef (refs s) = Some r →
  recorders (browser s) !! r = Some m → rec_state m = recording →
  ∃ s' artifact,
    run [ClickShutter; Stopped r] s = Some s'
    ∧ previewBlob (st s') = Some artifact
    ∧ blob_data artifact = concat (map blob_data (recordedChunksRef (refs s)))
    ∧ blob_type artifact = "video/webm"
    ∧ (recordedChunksRef (refs s) = [] → blob_size artifact = 0)
    ∧ session_state s' = (if existsb terminal (log s) then Closed else Previewing).
Proof.
  intros Hm Hp Hmode Hrec Href Hlook Hstate.
  set (s1 := commit (handleShutterClick s)).
  assert (Hs1 : step ClickShutter s = Some s1).
  { unfold step, live_controls. by rewrite Hm, Hp. }
  assert (Hshutter : handleShutterClick s
                     = setIsRecording false (with_browser (recorder_stop r) s)).
  { unfold handleShutterClick, handleStopRecording. by rewrite Hmode, Hrec, Href. }
  destruct (commit_frame (handleShutterClick s)) as (Hst1 & _ & Hch1 & Hm1 & Hl1).
  destruct (commit_browser (handleShutterClick s)) as (_ & _ & Hrs1 & _ & _).
  fold s1 in Hst1, Hch1, Hm1, Hl1, Hrs1.
  assert (Hlook1 : ∃ m1, recorders (browser s1) !! r = Some m1
                         ∧ rec_stopping m1 = true).
  { rewrite Hrs1, Hshutter. simpl. rewrite lookup_alter_eq, Hlook. simpl.
    rewrite Hstate. by eexists. }
  destruct Hlook1 as (m1 & Hlook1 & Hstop1).
  set (s2 := commit (onstop (with_browser (recorder_stopped r) s1))).
  assert (Hs2 : step (Stopped r) s1 = Some s2).
  { unfold step. rewrite Hm1, Hshutter. simpl. rewrite Hm. simpl.
    by rewrite Hlook1, Hstop1. }
  destruct (commit_frame (onstop (with_browser (recorder_stopped r) s1)))
    as (Hst2 & _ & _ & Hm2 & Hl2).
  fold s2 in Hst2, Hm2, Hl2.
  exists s2, (new_Blob (recordedChunksRef (refs s)) "video/webm").
  split. { simpl. by rewrite Hs1, Hs2. }
  split. { rewrite Hst2. simpl. rewrite Hch1, Hshutter. done. }
  split; [done|]. split; [done|].
  split. { intros ->. done. }
  unfold session_state. rewrite Hm2, Hl2, Hst2. simpl.
  rewrite Hm1, Hl1, Hshutter. simpl. rewrite Hm.
  by destruct (existsb terminal (log s)).
Qed.

Lemma recording_demo_reached :
  run recording_events (mount chrome) = Some recording_demo.
Proof. vm_compute. reflexivity. Qed.

Lemma stop_recording_concatenates_chunks_witness :
  ∃ s' artifact,
    run [ClickShutter; Stopped 0] recording_demo = Some s'
    ∧ previewBlob (st s') = Some artifact
    ∧ blob_data artifact = [Byte.x1a; Byte.x45; Byte.xdf]
    ∧ blob_type artifact = "video/webm"
    ∧ (recordedChunksRef (refs recording_demo) = [] → blob_size artifact = 0)
    ∧ session_state s' = Previewing.
Proof.
  destruct (recorders (browser recording_demo) !! 0) as [m|] eqn:Hm;
    [|vm_compute in Hm; discriminate].
  apply (stop_recording_concatenates_chunks recording_demo 0 m);
    try reflexivity; try exact Hm.
  vm_compute in Hm. injection Hm as <-. reflexivity.
Defined.

Lemma ondataavailable_chunks (data : Blob) (s : System) :
  recordedChunksRef (refs (ondataavailable data s))
  = if 0 <? blob_size data then recordedChunksRef (refs s) ++ [data]
    else recordedChunksRef (refs s).
Proof. unfold ondataavailable. by destruct (0 <? blob_size data). Qed.

Lemma handleStartRecording_chunks (s : System) :
  recordedChunksRef (refs (handleStartRecording s)) = []
  ∨ handleStartRecording s = s.
Proof.
  unfold handleStartRecording. destruct (stream (st s)) as [ms|]; [left|by right].
  destruct (new_MediaRecorder_with _ _ _) as [[r br]|]; [done|].
  by destruct (new_MediaRecorder _ _) as [r br].
Qed.

Lemma toBlob_callback_chunks (blob : option Blob) (s : System) :
  recordedChunksRef (refs (toBlob_callback blob s)) = recordedChunksRef (refs s).
Proof. by destruct blob. Qed.

Lemma handler_chunks_nonempty (s : System) :
  chunks_nonempty s →
  chunks_nonempty (handleShutterClick s) ∧ chunks_nonempty (handleRetake s)
  ∧ chunks_nonempty (handleConfirm s).
Proof.
  intros H. unfold chunks_nonempty in *. repeat split.
  - unfold handleShutterClick, handleTakePicture, handleStopRecording.
    repeat case_match; try done.
    destruct (handleStartRecording_chunks s) as [-> | ->]; [constructor|done].
  - unfold handleRetake. by destruct (preview (st s)).
  - unfold handleConfirm. by destruct (previewBlob (st s)).
Qed.

Lemma commit_chunks (s : System) :
  recordedChunksRef (refs (commit s)) = recordedChunksRef (refs s).
Proof. by destruct (commit_frame s) as (_ & _ & -> & _). Qed.

Lemma setupCamera_resolved_chunks (ms : MediaStream) (s : System) :
  recordedChunksRef (refs (setupCamera_resolved ms s)) = recordedChunksRef (refs s).
Proof. unfold setupCamera_resolved. simpl. by destruct (videoRef (refs s)). Qed.

Lemma unmount_chunks (s : System) :
  recordedChunksRef (refs (unmount s)) = recordedChunksRef (refs s).
Proof.
  unfold unmount. simpl.
  by destruct (effect_cleanup_frame s) as (_ & -> & _).
Qed.

Lemma step_chunks_nonempty (e : Event) (s s' : System) :
  step e s = Some s' → chunks_nonempty s → chunks_nonempty s'.
Proof.
  intros Hstep H. destruct (handler_chunks_nonempty s H) as (Hsh & Hre & Hco).
  unfold step in Hstep. unfold chunks_nonempty in *.
  destruct (mounted s); [simpl in Hstep|done].
  destruct e; repeat case_match; simplify_eq;
    rewrite ?commit_chunks, ?setupCamera_resolved_chunks,
      ?toBlob_callback_chunks, ?unmount_chunks, ?ondataavailable_chunks;
    try done.
  all: case_match; [|done].
  all: apply Forall_app; split; [done|]; constructor; [|done].
  all: by apply Nat.ltb_lt.
Qed.

Lemma run_chunks_nonempty (evs : list Event) (s s' : System) :
  run evs s = Some s' → chunks_nonempty s → chunks_nonempty s'.
Proof.
  revert s. induction evs as [|e evs IH]; intros s Hrun H; simpl in Hrun.
  - by simplify_eq.
  - destruct (step e s) as [s1|] eqn:Hstep; [|done].
    eapply IH; [done|]. by eapply step_chunks_nonempty.
Qed.

(** C6: in every state the component reaches, a chunk delivered to
    [ondataavailable] is appended to the retained sequence if and only if it
    is non-empty (an empty one changes nothing); so the retained chunks are
    all non-empty, and the artifact built when the recorder stops is made of
    exactly those. *)
Theorem only_nonempty_chunks_are_retained (b : Browser) (evs : list Event) (s : System) :
  run evs (mount b) = Some s →
  Forall (λ c, 0 < blob_size c) (recordedChunksRef (refs s))
  ∧ (∀ r data s', step (DataAvailable r data) s = Some s' →
       (recordedChunksRef (refs s') = recordedChunksRef (refs s) ++ [data]
        ↔ 0 < blob_size data)
       ∧ (blob_size data = 0 → s' = s))
  ∧ (∀ r s', step (Stopped r) s = Some s' →
       ∃ artifact,
         previewBlob (st s') = Some artifact
         ∧ blob_data artifact
           = concat (map blob_data (recordedChunksRef (refs s)))).
Proof.
  intros Hrun. split; [|split].
  - apply (run_chunks_nonempty evs (mount b) s Hrun). constructor.
  - intros r data s' Hstep. unfold step in Hstep.
    destruct (mounted s); [simpl in Hstep|done].
    assert (s' = ondataavailable data s) as -> by (repeat case_match; by simplify_eq).
    rewrite ondataavailable_chunks. unfold ondataavailable.
    destruct (0 <? blob_size data) eqn:Hsz.
    + apply Nat.ltb_lt in Hsz. split; [done|lia].
    + apply Nat.ltb_ge in Hsz. split; [|done]. split; [|lia].
      intros Heq. apply (f_equal length) in Heq.
      rewrite length_app in Heq. simpl in Heq. lia.
  - intros r s' Hstep. unfold step in Hstep.
    destruct (mounted s); [simpl in Hstep|done].
    repeat case_match; simplify_eq.
    exists (new_Blob (recordedChunksRef (refs s)) "video/webm").
    split; [|done].
    by destruct (commit_frame (onstop (with_browser (recorder_stopped r) s)))
      as (-> & _).
Qed.

Lemma only_nonempty_chunks_are_retained_witness :
  Forall (λ c, 0 < blob_size c) (recordedChunksRef (refs recording_demo))
  ∧ (∀ r data s', step (DataAvailable r data) recording_demo = Some s' →
       (recordedChunksRef (refs s')
        = recordedChunksRef (refs recording_demo) ++ [data]
        ↔ 0 < blob_size data)
       ∧ (blob_size data = 0 → s' = recording_demo))
  ∧ (∀ r s', step (Stopped r) recording_demo = Some s' →
       ∃ artifact,
         previewBlob (st s') = Some artifact
         ∧ blob_data artifact
           = concat (map blob_data (recordedChunksRef (refs recording_demo)))).
Proof.
  apply (only_nonempty_chunks_are_retained chrome recording_events recording_demo).
  vm_compute. reflexivity.
Defined.

(** C8: when the browser rejects the preferred codec "video/webm; codecs=vp9",
    pressing the shutter in video mode still starts a recording, on a
    recorder built with the browser's default codec; the failure adds one
    [console.error] line to the log and nothing else: no [alert], no
    callback to the caller. *)
Theorem codec_fallback_is_silent (s : System) (ms : MediaStream) :
  mounted s = true → preview (st s) = None →
  mode (st s) = video → isRecording (st s) = false →
  stream (st s) = Some ms →
  "video/webm; codecs=vp9" ∉ supported_types (browser s) →
  ∃ s' r m,
    step ClickShutter s = Some s'
    ∧ mediaRecorderRef (refs s') = Some r
    ∧ recorders (browser s') !! r = Some m
    ∧ rec_stream m = ms
    ∧ rec_mimeType m = default_type (browser s)
    ∧ rec_state m = recording
    ∧ isRecording (st s') = true
    ∧ log s' = log s ++ [console_error
                           "Error creating MediaRecorder with vp9, falling back:"].
Proof.
  intros Hm Hp Hmode Hrec Hstream Hvp9.
  set (s1 := handleStartRecording s).
  assert (Hstart :
    s1 = setIsRecording true
           (with_browser (recorder_start (next_recorder (browser s)))
              (set_mediaRecorderRef (Some (next_recorder (browser s)))
                 (with_browser (λ b, snd (new_MediaRecorder ms b))
                    (emit (console_error
                             "Error creating MediaRecorder with vp9, falling back:")
                       (set_recordedChunksRef [] s)))))).
  { unfold s1, handleStartRecording, new_MediaRecorder_with. rewrite Hstream.
    simpl. by rewrite bool_decide_eq_false_2. }
  exists (commit s1), (next_recorder (browser s)),
    {| rec_stream := ms; rec_mimeType := default_type (browser s);
       rec_state := recording; rec_stopping := false |}.
  destruct (commit_frame s1) as (-> & -> & _ & _ & ->).
  destruct (commit_browser s1) as (_ & _ & -> & _).
  split.
  { unfold step, live_controls, handleShutterClick.
    by rewrite Hm, Hp, Hmode, Hrec. }
  rewrite Hstart. simpl. repeat split.
  by rewrite lookup_alter_eq, lookup_insert_eq.
Qed.

Lemma safari_video_demo_reached :
  run video_ready_events (mount safari) = Some safari_video_demo.
Proof. vm_compute. reflexivity. Qed.

Lemma codec_fallback_is_silent_witness :
  ∃ s' r m,
    step ClickShutter safari_video_demo = Some s'
    ∧ mediaRecorderRef (refs s') = Some r
    ∧ recorders (browser s') !! r = Some m
    ∧ rec_stream m = {| stream_id := 1; stream_tracks := [1; 2];
                        frame_width := 640; frame_height := 480 |}
    ∧ rec_mimeType m = "video/mp4"
    ∧ rec_state m = recording
    ∧ isRecording (st s') = true
    ∧ log s' = [console_error
                  "Error creating MediaRecorder with vp9, falling back:"].
Proof.
  apply (codec_fallback_is_silent safari_video_demo
           {| stream_id := 1; stream_tracks := [1; 2];
              frame_width := 640; frame_height := 480 |});
    try reflexivity.
  vm_compute. intros H. by repeat (inversion H as [|? ? ? H']; clear H; rename H' into H).
Defined.

(** ** Photo snapshots *)

(** What [handleTakePicture] does with the [<video>] element it finds:
    pressing the shutter in photo mode queues one encoding of the element's
    current frame on a canvas of the element's [videoWidth] x [videoHeight],
    at quality 0.95 and type "image/jpeg".  Whenever that encoding yields a
    blob, the blob is stored as the artifact, its type is "image/jpeg", and
    the canvas had the frame size of the stream attached to the element.
    The element's [srcObject] need not be the stream the component holds:
    after Retake it is empty, as the next theorem but one shows. *)
Theorem snapshot_is_native_size_jpeg (s : System) (el : HTMLVideoElement) :
  mounted s = true → preview (st s) = None → mode (st s) = photo →
  videoRef (refs s) = Some el →
  context_2d (browser s) = true → toBlob_pending (browser s) = [] →
  ∃ s1 req,
    step ClickShutter s = Some s1
    ∧ toBlob_pending (browser s1) = [req]
    ∧ canvas_width req = videoWidth el
    ∧ canvas_height req = videoHeight el
    ∧ drawn_from req = srcObject el
    ∧ tb_quality req = 0.95%Q
    ∧ tb_type req = "image/jpeg"
    ∧ ∀ encoded, ∃ s2,
        step (Encoded encoded) s1 = Some s2
        ∧ match toBlob_result req encoded with
          | Some blob =>
              previewBlob (st s2) = Some blob
              ∧ blob_type blob = "image/jpeg"
              ∧ (∃ ms, srcObject el = Some ms
                       ∧ canvas_width req = frame_width ms
                       ∧ canvas_height req = frame_height ms)
              ∧ ∃ url, preview (st s2) = Some url
                       ∧ object_urls (browser s2) !! url = Some blob
          | None => st s2 = st s1
          end.
Proof.
  intros Hm Hp Hmode Hvid Hctx Hq.
  set (req := {| canvas_width := videoWidth el; canvas_height := videoHeight el;
                 drawn_from := srcObject el; tb_type := "image/jpeg";
                 tb_quality := 0.95%Q |}).
  assert (Hshot : handleShutterClick s
                  = with_browser (set_toBlob_pending (λ q, q ++ [req])) s).
  { unfold handleShutterClick, handleTakePicture.
    by rewrite Hmode, Hvid, Hctx. }
  set (s1 := commit (handleShutterClick s)).
  destruct (commit_frame (handleShutterClick s)) as (Hst1 & _ & _ & Hm1 & _).
  destruct (commit_browser (handleShutterClick s)) as (_ & _ & _ & Hq1 & _).
  fold s1 in Hst1, Hm1, Hq1.
  rewrite Hshot in Hst1, Hm1, Hq1. simpl in Hst1, Hm1, Hq1. rewrite Hq in Hq1.
  exists s1, req. split.
  { unfold step, live_controls. by rewrite Hm, Hp. }
  do 6 (split; [done|]).
  intros encoded.
  set (s1' := with_browser (set_toBlob_pending (λ _, [])) s1).
  exists (commit (toBlob_callback (toBlob_result req encoded) s1')).
  split. { unfold step. rewrite Hm1, Hm, Hq1. reflexivity. }
  destruct (commit_frame (toBlob_callback (toBlob_result req encoded) s1'))
    as (-> & _).
  destruct (commit_browser (toBlob_callback (toBlob_result req encoded) s1'))
    as (_ & -> & _).
  destruct (toBlob_result req encoded) as [blob|] eqn:Hres; [|done].
  unfold toBlob_result in Hres.
  destruct ((canvas_width req =? 0) || (canvas_height req =? 0)) eqn:Hdim;
    [done|].
  apply orb_false_iff in Hdim as [Hw _]. apply Nat.eqb_neq in Hw.
  simpl. split; [done|]. split; [|split].
  - destruct encoded; simpl in Hres; simplify_eq; reflexivity.
  - simpl in Hw. unfold videoWidth, videoHeight in *.
    destruct (srcObject el) as [ms|]; [by exists ms|done].
  - eexists. split; [done|]. by rewrite lookup_insert_eq.
Qed.

Lemma streaming_demo_reached :
  run [Resolved 0 1280 720] (mount chrome) = Some streaming_demo.
Proof. vm_compute. reflexivity. Qed.

Lemma snapshot_is_native_size_jpeg_witness :
  ∃ s1 req,
    step ClickShutter streaming_demo = Some s1
    ∧ toBlob_pending (browser s1) = [req]
    ∧ canvas_width req = 1280
    ∧ canvas_height req = 720
    ∧ drawn_from req = stream (st streaming_demo)
    ∧ tb_quality req = 0.95%Q
    ∧ tb_type req = "image/jpeg"
    ∧ ∀ encoded, ∃ s2,
        step (Encoded encoded) s1 = Some s2
        ∧ match toBlob_result req encoded with
          | Some blob =>
              previewBlob (st s2) = Some blob
              ∧ blob_type blob = "image/jpeg"
              ∧ (∃ ms, stream (st streaming_demo) = Some ms
                       ∧ canvas_width req = frame_width ms
                       ∧ canvas_height req = frame_height ms)
              ∧ ∃ url, preview (st s2) = Some url
                       ∧ object_urls (browser s2) !! url = Some blob
          | None => st s2 = st s1
          end.
Proof.
  apply (snapshot_is_native_size_jpeg streaming_demo
           {| srcObject := stream (st streaming_demo) |});
    reflexivity.
Defined.

(** On that session the encoder's bytes become the artifact. *)
Example snapshot_demo :
  ∃ s,
    run [ClickShutter; Encoded (Some [Byte.xff; Byte.xd8])] streaming_demo = Some s
    ∧ session_state s = Previewing
    ∧ previewBlob (st s) = Some jpeg_demo.
Proof. eexists. split; [vm_compute; reflexivity|]. by vm_compute. Qed.

(** C9: a photo snapshot is not always rendered at the native frame size of
    the stream, and does not always yield an artifact.  A first photo is
    taken and discarded with Retake.  The component then holds a live
    1280 x 720 stream and shows the live view again, but the [<video>]
    element of that view is a new one and [setupCamera], the only code that
    assigns [srcObject], has not run again.  The next shutter press sizes
    the canvas 0 x 0 and draws from no stream; whatever bytes the encoder
    could deliver, the canvas has no pixels, [toBlob] passes [null], and
    nothing is stored: no preview, no artifact, the session stays in the
    live view. *)
Theorem snapshot_after_retake_yields_no_artifact :
  ∃ s s1,
    run (photo_preview_events ++ [ClickRetake]) (mount chrome) = Some s
    ∧ session_state s = Streaming
    ∧ mode (st s) = photo
    ∧ holds_live_stream s = true
    ∧ (λ ms, (frame_width ms, frame_height ms)) <$> stream (st s)
      = Some (1280, 720)
    ∧ main_element s = live_video
    ∧ videoRef (refs s) = Some {| srcObject := None |}
    ∧ step ClickShutter s = Some s1
    ∧ map (λ req, (canvas_width req, canvas_height req, drawn_from req,
                   tb_type req))
          (toBlob_pending (browser s1))
      = [(0, 0, None, "image/jpeg")]
    ∧ ∀ bytes, ∃ s2,
        step (Encoded (Some bytes)) s1 = Some s2
        ∧ previewBlob (st s2) = None
        ∧ preview (st s2) = None
        ∧ object_urls (browser s2) = ∅
        ∧ session_state s2 = Streaming
        ∧ log s2 = [].
Proof.
  do 2 eexists. split; [vm_compute; reflexivity|].
  do 5 (split; [by vm_compute|]).
  split; [vm_compute; reflexivity|].
  split; [vm_compute; reflexivity|].
  split; [by vm_compute|].
  intros bytes. eexists. split; [reflexivity|]. by vm_compute.
Qed.

(** ** Acquiring the camera *)

Lemma calls_app (p : Effect → bool) (l1 l2 : list Effect) :
  calls p (l1 ++ l2) = calls p l1 + calls p l2.
Proof. unfold calls. by rewrite List.filter_app, length_app. Qed.

Lemma no_terminal_no_calls (l : list Effect) :
  existsb terminal l = false →
  calls is_onClose l = 0 ∧ calls is_onCapture l = 0.
Proof.
  induction l as [|e l IH]; [done|]. simpl. intros H.
  apply orb_false_iff in H as [He Hl]. destruct (IH Hl) as [IH1 IH2].
  unfold calls in *. by destruct e.
Qed.

(** [setupCamera] stops every track of the stream the component holds before
    it asks for a new one. *)
Lemma setupCamera_releases_held_stream (f : FacingMode) (m : CaptureMode)
    (s : System) (ms : MediaStream) :
  stream (st s) = Some ms →
  stream_live (browser (setupCamera f m s)) ms = false
  ∧ gum_pending (browser (setupCamera f m s)) !! next_request (browser s)
    = Some {| c_facingMode := f; c_width_ideal := 1920; c_height_ideal := 1080;
              c_audio := bool_decide (m = video) |}.
Proof.
  intros Hs. unfold setupCamera. rewrite Hs. simpl. split.
  - apply stream_live_stopped.
  - destruct (stop_all_tracks_rest ms (browser s)) as (_ & -> & -> & _).
    apply lookup_insert_eq.
Qed.

Lemma initializing_inv (s : System) :
  session_state s = Initializing →
  existsb terminal (log s) = false ∧ mounted s = true
  ∧ holds_live_stream s = false.
Proof.
  unfold session_state.
  destruct (existsb terminal (log s)), (mounted s); simpl; try done.
  by repeat case_match.
Qed.

(** The [catch] block of [setupCamera] taken alone: when a request is
    rejected in a session that has called no terminal prop so far and holds
    no live stream, the block logs, warns and calls [onClose]; the rejection
    hands out no stream.  What the other requests of the same session do
    before and afterwards is outside this lemma; the sessions after it
    show what they can do. *)
Theorem device_access_error_closes_session (s : System) (r : nat)
    (c : MediaStreamConstraints) :
  session_state s = Initializing →
  gum_pending (browser s) !! r = Some c →
  ∃ s',
    step (Rejected r) s = Some s'
    ∧ session_state s' = Closed
    ∧ calls is_onClose (log s') = 1
    ∧ calls is_onCapture (log s') = 0
    ∧ holds_live_stream s' = false
    ∧ streams (browser s') = streams (browser s)
    ∧ log s' = log s ++ [console_error "Error accessing camera:";
                         alert "Could not access camera. Please check permissions.";
                         onClose].
Proof.
  intros Hinit Hpending.
  destruct (initializing_inv s Hinit) as (Hterm & Hm & Hlive).
  destruct (no_terminal_no_calls (log s) Hterm) as (Hclose & Hcapture).
  set (s1 := setupCamera_rejected (with_browser (set_gum_pending (delete r)) s)).
  assert (Hlog : log (commit s1)
                 = log s ++ [console_error "Error accessing camera:";
                             alert "Could not access camera. Please check permissions.";
                             onClose]).
  { destruct (commit_frame s1) as (_ & _ & _ & _ & ->). simpl.
    by rewrite <- !app_assoc. }
  exists (commit s1). split.
  { unfold step. by rewrite Hm, Hpending. }
  split.
  { unfold session_state. rewrite Hlog, existsb_app. simpl.
    by rewrite orb_true_r. }
  split. { rewrite Hlog, calls_app, Hclose. done. }
  split. { rewrite Hlog, calls_app, Hcapture. done. }
  split. { by apply commit_holds_live. }
  split; [|done]. by destruct (commit_browser s1) as (-> & _).
Qed.

Lemma device_access_error_closes_session_witness :
  ∃ s',
    step (Rejected 0) (mount chrome) = Some s'
    ∧ session_state s' = Closed
    ∧ calls is_onClose (log s') = 1
    ∧ calls is_onCapture (log s') = 0
    ∧ holds_live_stream s' = false
    ∧ streams (browser s') = []
    ∧ log s' = [console_error "Error accessing camera:";
                alert "Could not access camera. Please check permissions.";
                onClose].
Proof.
  apply (device_access_error_closes_session (mount chrome) 0
           {| c_facingMode := environment; c_width_ideal := 1920;
              c_height_ideal := 1080; c_audio := false |});
    reflexivity.
Defined.

(** A failed re-acquisition: the session was streaming, the camera is
    flipped (which stops the stream held so far), and the new request is
    rejected. *)
Example failed_flip_closes_session :
  ∃ s s',
    run [Resolved 0 1280 720; ClickFlip] (mount chrome) = Some s
    ∧ session_state s = Initializing
    ∧ step (Rejected 1) s = Some s'
    ∧ session_state s' = Closed
    ∧ calls is_onClose (log s') = 1
    ∧ open_handles (browser s') = [].
Proof. do 2 eexists. split; [vm_compute; reflexivity|]. by vm_compute. Qed.

(** C7: a failed acquisition does not always leave a closed session with
    one [onClose] call and no live stream held.  The flip and the mode
    buttons stay enabled while [getUserMedia] is pending, so a second
    request can be started before the first has settled; each request then
    runs its own continuation, whether or not the parent has unmounted the
    component in between.
    - Flip during the first acquisition, both requests rejected: the first
      rejection, in an initializing session, closes it with one [onClose];
      the second runs the [catch] block again, and [onClose] and the alert
      have been called twice.
    - Flip during the first acquisition, the first request rejected and the
      second resolved: after the session was closed a stream is opened, and
      nothing stops it.
    - VIDEO selected during the first acquisition, the first request
      resolved and the second rejected: the failed acquisition closes the
      session once, while the component holds the live stream of the first
      request; the cleanup run by the unmount stops the stream of the
      render in which the effect last ran, which is none, and the stream
      stays live. *)
Theorem overlapping_acquisition_failure_breaks_close :
  (∃ s0 s1 s2 u s3,
     run [ClickFlip] (mount chrome) = Some s0
     ∧ session_state s0 = Initializing
     ∧ dom (gum_pending (browser s0)) = {[0; 1]}
     ∧ step (Rejected 0) s0 = Some s1
     ∧ session_state s1 = Closed
     ∧ calls is_onClose (log s1) = 1
     ∧ step (Rejected 1) s1 = Some s2
     ∧ calls is_onClose (log s2) = 2
     ∧ calls is_alert (log s2) = 2
     ∧ step Unmount s1 = Some u
     ∧ settle_after_unmount (Rejected 1) u = Some s3
     ∧ calls is_onClose (log s3) = 2
     ∧ calls is_alert (log s3) = 2)
  ∧ (∃ s1 s2 u s3,
       run [ClickFlip; Rejected 0] (mount chrome) = Some s1
       ∧ session_state s1 = Closed
       ∧ open_handles (browser s1) = []
       ∧ step (Resolved 1 1280 720) s1 = Some s2
       ∧ session_state s2 = Closed
       ∧ calls is_onClose (log s2) = 1
       ∧ holds_live_stream s2 = true
       ∧ stream_id <$> open_handles (browser s2) = [0]
       ∧ step Unmount s1 = Some u
       ∧ settle_after_unmount (Resolved 1 1280 720) u = Some s3
       ∧ stream_id <$> open_handles (browser s3) = [0])
  ∧ (∃ s0 s1 u,
       run [ClickVideo; Resolved 0 1280 720] (mount chrome) = Some s0
       ∧ existsb terminal (log s0) = false
       ∧ dom (gum_pending (browser s0)) = {[1]}
       ∧ step (Rejected 1) s0 = Some s1
       ∧ session_state s1 = Closed
       ∧ calls is_onClose (log s1) = 1
       ∧ holds_live_stream s1 = true
       ∧ stream_id <$> open_handles (browser s1) = [0]
       ∧ step Unmount s1 = Some u
       ∧ stream_id <$> open_handles (browser u) = [0]).
Proof.
  split; [|split].
  - do 5 eexists. split; [vm_compute; reflexivity|].
    do 2 (split; [by vm_compute|]).
    split; [vm_compute; reflexivity|]. do 2 (split; [by vm_compute|]).
    split; [vm_compute; reflexivity|]. do 2 (split; [by vm_compute|]).
    split; [vm_compute; reflexivity|].
    split; [vm_compute; reflexivity|]. by vm_compute.
  - do 4 eexists. split; [vm_compute; reflexivity|].
    do 2 (split; [by vm_compute|]).
    split; [vm_compute; reflexivity|]. do 4 (split; [by vm_compute|]).
    split; [vm_compute; reflexivity|].
    split; [vm_compute; reflexivity|]. by vm_compute.
  - do 3 eexists. split; [vm_compute; reflexivity|].
    do 2 (split; [by vm_compute|]).
    split; [vm_compute; reflexivity|]. do 4 (split; [by vm_compute|]).
    split; [vm_compute; reflexivity|]. by vm_compute.
Qed.

(** [acquire] after a successful acquisition: the effect re-run by a flip or
    a mode change sees the stream of its own render, and stops it first. *)
Example flip_releases_then_requests :
  ∃ s s',
    run [Resolved 0 1280 720] (mount chrome) = Some s
    ∧ session_state s = Streaming
    ∧ step ClickFlip s = Some s'
    ∧ session_state s' = Initializing
    ∧ open_handles (browser s') = []
    ∧ gum_pending (browser s') !! 1
      = Some {| c_facingMode := user; c_width_ideal := 1920;
                c_height_ideal := 1080; c_audio := false |}.
Proof. do 2 eexists. split; [vm_compute; reflexivity|]. by vm_compute. Qed.

(** C4: the component holds two live streams at once when a second
    acquisition is started before the first one has resolved.  After a
    first successful acquisition the camera is flipped twice in a row; each
    run of [setupCamera] stops the stream of its render (stream 0), the two
    requests then resolve one after the other, and stream 1 is never
    stopped: streams 1 and 2 are both live. *)
Theorem overlapping_acquisitions_leave_two_streams :
  ∃ s0 s,
    run [Resolved 0 1280 720] (mount chrome) = Some s0
    ∧ session_state s0 = Streaming
    ∧ run [ClickFlip; ClickFlip; Resolved 1 1280 720; Resolved 2 1280 720] s0
      = Some s
    ∧ map stream_id (open_handles (browser s)) = [1; 2]
    ∧ option_map stream_id (stream (st s)) = Some 2
    ∧ elements (live_tracks (browser s)) ≡ₚ [1; 2].
Proof.
  do 2 eexists. split; [vm_compute; reflexivity|].
  split; [by vm_compute|]. split; [vm_compute; reflexivity|].
  split; [by vm_compute|]. split; [by vm_compute|].
  vm_compute. apply perm_swap.
Qed.

(** ** Preview, retake, confirm, close *)

(** Retake revokes the object URL of the preview. *)
Lemma handleRetake_revokes (s : System) (url : nat) :
  preview (st s) = Some url →
  object_urls (browser (handleRetake s)) !! url = None
  ∧ preview (st (handleRetake s)) = None
  ∧ previewBlob (st (handleRetake s)) = None.
Proof.
  intros H. unfold handleRetake. rewrite H. simpl.
  by rewrite lookup_delete_eq.
Qed.

(** Retake from the photo preview: the session streams again and the object
    URL is revoked.  The [<video>] element was removed while the preview was
    shown; the one rendered now is new, and [setupCamera], which alone
    assigns [srcObject], does not run again: a shutter press queues a canvas
    without pixels, and no artifact comes of it. *)
Example retake_demo :
  ∃ s s1,
    run (photo_preview_events ++ [ClickRetake]) (mount chrome) = Some s
    ∧ session_state s = Streaming
    ∧ object_urls (browser s) !! 0 = None
    ∧ videoRef (refs s) = Some {| srcObject := None |}
    ∧ step ClickShutter s = Some s1
    ∧ map (λ req, (canvas_width req, canvas_height req)) (toBlob_pending (browser s1))
      = [(0, 0)]
    ∧ ∀ bytes, ∃ s2, step (Encoded bytes) s1 = Some s2 ∧ previewBlob (st s2) = None.
Proof.
  do 2 eexists. split; [vm_compute; reflexivity|].
  do 3 (split; [by vm_compute|]). split; [vm_compute; reflexivity|].
  split; [by vm_compute|].
  intros bytes. eexists. split; [reflexivity|]. by destruct bytes.
Qed.

(** Confirm leaves the browser, and with it the object-URL registry, as it
    was. *)
Lemma handleConfirm_browser (s : System) :
  browser (handleConfirm s) = browser s ∧ st (handleConfirm s) = st s.
Proof. unfold handleConfirm. by destruct (previewBlob (st s)). Qed.

(** C1: after confirm from the preview the session is closed and
    [onCapture] has been called once, with the artifact and its type; the
    preview's object URL however is still registered: unlike retake,
    confirm does not revoke it. *)
Theorem confirm_keeps_preview_reference :
  ∃ s s',
    run photo_preview_events (mount chrome) = Some s
    ∧ session_state s = Previewing
    ∧ preview (st s) = Some 0
    ∧ previewBlob (st s) = Some jpeg_demo
    ∧ step ClickConfirm s = Some s'
    ∧ session_state s' = Closed
    ∧ log s' = [onCapture jpeg_demo "image/jpeg"]
    ∧ object_urls (browser s') !! 0 = Some jpeg_demo
    ∧ object_urls (browser (handleRetake s)) !! 0 = None.
Proof.
  do 2 eexists. split; [vm_compute; reflexivity|].
  do 3 (split; [by vm_compute|]). split; [vm_compute; reflexivity|].
  by vm_compute.
Qed.

(** With a preview on screen the mode and flip buttons are not rendered. *)
Lemma previewing_has_no_live_controls (s : System) :
  session_state s = Previewing →
  step ClickFlip s = None ∧ step ClickPhoto s = None
  ∧ step ClickVideo s = None ∧ step ClickShutter s = None.
Proof.
  unfold session_state, step, live_controls.
  destruct (existsb terminal (log s)), (mounted s); simpl; try done.
  destruct (preview (st s)); [done|]. by repeat case_match.
Qed.

(** Without a preview the flip and mode buttons work, whatever else the
    session is doing. *)
Lemma live_controls_take_effect (s : System) :
  mounted s = true → preview (st s) = None →
  ∃ s1 s2 s3,
    step ClickFlip s = Some s1 ∧ facingMode (st s1) ≠ facingMode (st s)
    ∧ step ClickPhoto s = Some s2 ∧ mode (st s2) = photo
    ∧ step ClickVideo s = Some s3 ∧ mode (st s3) = video.
Proof.
  intros Hm Hp. unfold step, live_controls. rewrite Hm, Hp. simpl.
  do 3 eexists. repeat split.
  - destruct (commit_frame (handleFlipCamera s)) as (-> & _). simpl.
    by destruct (facingMode (st s)).
  - by destruct (commit_frame (setMode photo s)) as (-> & _).
  - by destruct (commit_frame (setMode video s)) as (-> & _).
Qed.

(** C2: while recording, the flip and mode buttons are still rendered and
    take effect at once.  From a recording session (back camera, video
    mode), a flip stores the front camera, stops the tracks of the stream
    being recorded and requests a new stream; PHOTO stores photo mode and
    does the same. *)
Theorem controls_take_effect_while_recording :
  session_state recording_demo = Recording
  ∧ facingMode (st recording_demo) = environment
  ∧ mode (st recording_demo) = video
  ∧ holds_live_stream recording_demo = true
  ∧ ∃ s1 s2,
      step ClickFlip recording_demo = Some s1
      ∧ session_state s1 = Recording
      ∧ facingMode (st s1) = user
      ∧ holds_live_stream s1 = false
      ∧ gum_pending (browser s1) !! 2
        = Some {| c_facingMode := user; c_width_ideal := 1920;
                  c_height_ideal := 1080; c_audio := true |}
      ∧ step ClickPhoto recording_demo = Some s2
      ∧ session_state s2 = Recording
      ∧ mode (st s2) = photo
      ∧ holds_live_stream s2 = false
      ∧ gum_pending (browser s2) !! 2
        = Some {| c_facingMode := environment; c_width_ideal := 1920;
                  c_height_ideal := 1080; c_audio := false |}.
Proof.
  do 4 (split; [by vm_compute|]).
  do 2 eexists. split; [vm_compute; reflexivity|].
  do 4 (split; [by vm_compute|]). split; [vm_compute; reflexivity|].
  by vm_compute.
Qed.

(** C3: closing while recording calls [onClose] and nothing else.  The
    recorder is still recording and its stream is still live, also after the
    component has been unmounted: the effect's cleanup stops the stream of
    the render in which the effect ran (stream 0, already stopped), not the
    one held now (stream 1). *)
Theorem close_while_recording_abandons_recorder :
  session_state recording_demo = Recording
  ∧ mediaRecorderRef (refs recording_demo) = Some 0
  ∧ option_map stream_id (stream (st recording_demo)) = Some 1
  ∧ option_map stream_id (effect_stream (hook recording_demo)) = Some 0
  ∧ ∃ s1 s2,
      step ClickClose recording_demo = Some s1
      ∧ session_state s1 = Closed
      ∧ log s1 = [onClose]
      ∧ recorder_open (browser s1) 0 = true
      ∧ holds_live_stream s1 = true
      ∧ step Unmount s1 = Some s2
      ∧ mounted s2 = false
      ∧ recorder_open (browser s2) 0 = true
      ∧ holds_live_stream s2 = true
      ∧ map stream_id (open_handles (browser s2)) = [1].
Proof.
  do 4 (split; [by vm_compute|]).
  do 2 eexists. split; [vm_compute; reflexivity|].
  do 4 (split; [by vm_compute|]). split; [vm_compute; reflexivity|].
  by vm_compute.
Qed.

(** The close button and the unmount never stop a recorder, and confirm never
    revokes an object URL, whatever the state. *)
Lemma close_leaves_recorders (s s' : System) :
  step ClickClose s = Some s' →
  recorders (browser s') = recorders (browser s)
  ∧ object_urls (browser s') = object_urls (browser s).
Proof.
  unfold step. destruct (mounted s); [simpl|done]. intros; simplify_eq.
  by destruct (commit_browser (handleClose s)) as (_ & -> & -> & _).
Qed.

Lemma unmount_leaves_recorders (s : System) :
  recorders (browser (unmount s)) = recorders (browser s)
  ∧ object_urls (browser (unmount s)) = object_urls (browser s).
Proof.
  unfold unmount. simpl.
  by destruct (effect_cleanup_browser s) as (_ & -> & -> & _).
Qed.

Lemma confirm_leaves_object_urls (s s' : System) :
  step ClickConfirm s = Some s' →
  object_urls (browser s') = object_urls (browser s).
Proof.
  unfold step. destruct (mounted s); [simpl|done].
  destruct (live_controls s); [done|]. intros; simplify_eq.
  destruct (commit_browser (handleConfirm s)) as (_ & -> & _).
  by destruct (handleConfirm_browser s) as (-> & _).
Qed.

(** When the stream the component holds is the only open one, acquiring
    again leaves no stream open while the request is pending. *)
Lemma setupCamera_leaves_no_handle (f : FacingMode) (m : CaptureMode)
    (s : System) (ms : MediaStream) :
  stream (st s) = Some ms →
  (∀ ms', ms' ∈ open_handles (browser s) → ms' = ms) →
  open_handles (browser (setupCamera f m s)) = [].
Proof.
  intros Hs Honly. apply elem_of_nil_inv. intros ms' Hin.
  unfold open_handles in Hin. apply list_elem_of_filter in Hin as [Hlive Hin].
  destruct (setupCamera_browser f m s) as (Hstreams & _ & _ & _ & Hsub).
  rewrite Hstreams in Hin. apply Is_true_true in Hlive.
  assert (ms' = ms) as ->.
  { apply Honly. unfold open_handles. apply list_elem_of_filter. split; [|done].
    apply Is_true_true. destruct (stream_live (browser s) ms') eqn:E; [done|].
    by rewrite (stream_live_mono _ _ _ Hsub E) in Hlive. }
  destruct (setupCamera_releases_held_stream f m s ms Hs) as [Hdead _].
  by rewrite Hdead in Hlive.
Qed.

(** ** Sessions without overlapping acquisitions *)

Lemma render_video_cam s : cam (render_video s) = cam s.
Proof. unfold render_video. by repeat case_match. Qed.

Lemma handlers_cam s :
  cam (handleShutterClick s) = cam s ∧ cam (handleRetake s) = cam s
  ∧ cam (handleConfirm s) = cam s
  ∧ cam (onstop s) = cam s
  ∧ (∀ blob, cam (toBlob_callback blob s) = cam s)
  ∧ (∀ data, cam (ondataavailable data s) = cam s).
Proof.
  repeat split.
  - unfold handleShutterClick, handleTakePicture, handleStopRecording,
      handleStartRecording, new_MediaRecorder_with, new_MediaRecorder.
    by repeat case_match; simplify_eq.
  - unfold handleRetake. by repeat case_match.
  - unfold handleConfirm. by repeat case_match.
  - by intros [].
  - intros data. unfold ondataavailable. by case_match.
Qed.

Lemma handlers_stable s :
  stable s →
  stable (handleShutterClick s) ∧ stable (handleRetake s)
  ∧ stable (handleConfirm s) ∧ stable (handleClose s)
  ∧ stable (onstop s)
  ∧ (∀ blob, stable (toBlob_callback blob s))
  ∧ (∀ ms, stable (setupCamera_resolved ms s))
  ∧ stable (setupCamera_rejected s).
Proof.
  unfold stable. intros H. repeat split; try done.
  - unfold handleShutterClick, handleTakePicture, handleStopRecording,
      handleStartRecording, new_MediaRecorder_with, new_MediaRecorder.
    repeat case_match; simplify_eq; simpl; congruence.
  - unfold handleRetake. repeat case_match; simpl; congruence.
  - unfold handleConfirm. repeat case_match; simpl; congruence.
  - by intros [].
  - intros ms. unfold setupCamera_resolved. simpl. by case_match.
Qed.

Lemma commit_stable_cam s : stable s → cam (commit s) = cam s ∧ stable (commit s).
Proof.
  unfold stable. intros H. unfold commit.
  assert (hook (render_video s) = hook s ∧ st (render_video s) = st s) as [Hh Hs].
  { by destruct (render_video_frame s) as (-> & _ & _ & -> & _). }
  rewrite Hh, Hs, bool_decide_eq_true_2 by done.
  by rewrite render_video_cam, Hh, Hs.
Qed.

Lemma commit_is_stable s : stable (commit s).
Proof.
  unfold stable, commit. case_bool_decide as H; [done|].
  unfold run_effect, with_hook; cbn [st hook].
  by destruct (setupCamera_frame
                 (facingMode (st (effect_cleanup (render_video s))))
                 (mode (st (effect_cleanup (render_video s))))
                 (effect_cleanup (render_video s))) as (-> & _).
Qed.

Lemma stop_all_tracks_counters ms b :
  next_track (stop_all_tracks ms b) = next_track b.
Proof.
  unfold stop_all_tracks.
  revert b; induction (stream_tracks ms) as [|t ts IH]; intros b; simpl; [done|].
  by rewrite IH.
Qed.

Lemma cam_wf_shrinks (c c' : Cam) : cam_wf c → shrinks c c' → cam_wf c'.
Proof.
  intros [Hf Hd Hh Hl] (Hs & Hlive & Hp & Hst & Hn).
  split; rewrite ?Hs, ?Hp, ?Hst, ?Hn; try done.
  destruct Hl as [[Hp0 Hl]|[Hl0 Hp1]]; [left|right].
  - split; [done|]. intros t Ht. apply Hl. by apply Hlive.
  - split; [|done]. rewrite Hl0 in Hlive.
    apply set_eq. intros t. split; [apply Hlive|]. by rewrite elem_of_empty.
Qed.

Lemma effect_cleanup_shrinks s : shrinks (cam s) (cam (effect_cleanup s)).
Proof.
  unfold effect_cleanup. destruct (effect_stream (hook s)) as [ms|]; [|done].
  unfold shrinks; simpl.
  destruct (stop_all_tracks_rest ms (browser s)) as (-> & -> & _).
  rewrite stop_all_tracks_live, stop_all_tracks_counters.
  repeat split. apply subseteq_difference_l. done.
Qed.

Lemma run_effect_cam s :
  cam (run_effect s)
  = {| cam_stream := stream (st s);
       cam_live := match stream (st s) with
                   | Some ms => live_tracks (browser s) ∖ list_to_set (stream_tracks ms)
                   | None => live_tracks (browser s)
                   end;
       cam_pending :=
         <[next_request (browser s) :=
             {| c_facingMode := facingMode (st s);
                c_width_ideal := 1920; c_height_ideal := 1080;
                c_audio := bool_decide (mode (st s) = video) |}]>
           (gum_pending (browser s));
       cam_streams := streams (browser s);
       cam_next_track := next_track (browser s);
       cam_next_request := S (next_request (browser s)) |}.
Proof.
  unfold run_effect, setupCamera, cam.
  destruct (stream (st s)) as [ms|] eqn:E; simpl; rewrite E; [|reflexivity].
  destruct (stop_all_tracks_rest ms (browser s)) as (-> & -> & -> & _).
  by rewrite stop_all_tracks_live, stop_all_tracks_counters.
Qed.

Lemma run_effect_cam_wf s :
  cam_wf (cam s) → gum_pending (browser s) = ∅ → cam_wf (cam (run_effect s)).
Proof.
  intros [Hf Hd Hh Hl] Hp. rewrite run_effect_cam. split; simpl in *; try done.
  right. rewrite Hp. split; [|eexists _, _; apply insert_empty].
  destruct Hl as [[_ Hl]|[Hl0 (r & k & Hp1)]].
  - apply set_eq. intros t. rewrite elem_of_empty. split; [|done].
    destruct (stream (st s)) as [ms|].
    + rewrite elem_of_difference, elem_of_list_to_set.
      intros [Ht Hn]. destruct (Hl t Ht) as (ms' & ? & ?). by simplify_eq.
    + intros Ht. by destruct (Hl t Ht) as (ms' & ? & ?).
  - rewrite Hp in Hp1. symmetry in Hp1. by apply singleton_non_empty in Hp1.
Qed.

Lemma commit_cam_wf s :
  cam_wf (cam s) → gum_pending (browser s) = ∅ → cam_wf (cam (commit s)).
Proof.
  intros Hwf Hp. unfold commit. case_bool_decide; [by rewrite render_video_cam|].
  apply run_effect_cam_wf.
  - eapply cam_wf_shrinks; [|apply effect_cleanup_shrinks].
    by rewrite render_video_cam.
  - destruct (effect_cleanup_shrinks (render_video s)) as (_ & _ & Hp' & _).
    simpl in Hp'. rewrite Hp'.
    by destruct (render_video_frame s) as (_ & _ & _ & _ & _ & _ & ->).
Qed.

Lemma open_stream_tracks c w h b ms b' :
  open_stream c w h b = (ms, b') →
  ∀ t, t ∈ stream_tracks ms →
       next_track b ≤ t < next_track b + length (stream_tracks ms).
Proof.
  unfold open_stream. intros ?; simplify_eq. simpl.
  intros t. destruct (c_audio c); simpl; rewrite ?elem_of_cons, ?elem_of_nil; lia.
Qed.

Lemma resolved_cam_wf (s : System) r c w h ms br :
  cam_wf (cam s) → gum_pending (browser s) !! r = Some c →
  open_stream c w h (set_gum_pending (delete r) (browser s)) = (ms, br) →
  cam_wf (cam (setupCamera_resolved ms (with_browser (λ _, br) s))).
Proof.
  intros [Hf Hd Hh Hl] Hr Hopen.
  pose proof (open_stream_tracks _ _ _ _ _ _ Hopen) as Htracks.
  assert (Hcam : cam (setupCamera_resolved ms (with_browser (λ _, br) s))
                 = {| cam_stream := Some ms;
                      cam_live := list_to_set (stream_tracks ms) ∪ live_tracks (browser s);
                      cam_pending := delete r (gum_pending (browser s));
                      cam_streams := streams (browser s) ++ [ms];
                      cam_next_track := next_track (browser s) + length (stream_tracks ms);
                      cam_next_request := next_request (browser s) |}).
  { unfold open_stream in Hopen. simplify_eq.
    unfold setupCamera_resolved. simpl. by destruct (videoRef (refs s)). }
  rewrite Hcam. clear Hcam Hopen. simpl in *.
  split; simpl.
  - intros ms' t [Hin| ->%list_elem_of_singleton]%elem_of_app Ht.
    + specialize (Hf ms' t Hin Ht). lia.
    + specialize (Htracks t Ht). lia.
  - intros ms1 ms2 t [H1| ->%list_elem_of_singleton]%elem_of_app
      [H2| ->%list_elem_of_singleton]%elem_of_app Ht1 Ht2; [by eauto| | |done].
    + specialize (Hf ms1 t H1 Ht1). specialize (Htracks t Ht2). lia.
    + specialize (Hf ms2 t H2 Ht2). specialize (Htracks t Ht1). lia.
  - intros ms' ?; simplify_eq. apply elem_of_app. right. by apply list_elem_of_singleton.
  - left. destruct Hl as [[Hp0 _]|[Hl0 (r' & k & Hp1)]].
    { by rewrite Hp0, lookup_empty in Hr. }
    rewrite Hp1 in Hr. apply lookup_singleton_Some in Hr as [-> ->].
    rewrite Hp1, delete_singleton_eq, Hl0. split; [done|].
    intros t Ht. exists ms. split; [done|].
    apply elem_of_union in Ht as [Ht|Ht]; [by apply elem_of_list_to_set in Ht|].
    by apply elem_of_empty in Ht.
Qed.

Lemma commit_keeps_inv (x s : System) :
  stable x → cam x = cam s → cam_wf (cam s) → camera_inv (commit x).
Proof.
  intros Hst Hcam Hwf. destruct (commit_stable_cam x Hst) as [Hc Hs].
  split; [done|]. by rewrite Hc, Hcam.
Qed.

Lemma rejected_cam_wf (s : System) r c :
  cam_wf (cam s) → gum_pending (browser s) !! r = Some c →
  cam_wf (cam (setupCamera_rejected (with_browser (set_gum_pending (delete r)) s))).
Proof.
  intros [Hf Hd Hh Hl] Hr. split; simpl in *; try done.
  left. destruct Hl as [[Hp0 _]|[Hl0 (r' & k & Hp1)]].
  { by rewrite Hp0, lookup_empty in Hr. }
  rewrite Hp1 in Hr. apply lookup_singleton_Some in Hr as [-> ->].
  rewrite Hp1, delete_singleton_eq, Hl0. split; [done|].
  intros t Ht. by apply elem_of_empty in Ht.
Qed.

Lemma unmount_inv (s : System) : camera_inv s → camera_inv (unmount s).
Proof.
  intros [Hst Hwf]. split.
  - unfold stable, unmount in *. simpl.
    by destruct (effect_cleanup_frame s) as (-> & _ & -> & _).
  - eapply cam_wf_shrinks; [exact Hwf|].
    apply (effect_cleanup_shrinks s).
Qed.

Lemma serial_step_inv (e : Event) (s s' : System) :
  serial_step e s = Some s' → camera_inv s → camera_inv s'.
Proof.
  intros Hstep [Hst Hwf].
  destruct (handlers_cam s) as (Hc1 & Hc2 & Hc3 & Hc4 & Hc5 & Hc6).
  destruct (handlers_stable s Hst) as (Hs1 & Hs2 & Hs3 & Hs4 & Hs5 & Hs6 & Hs7 & Hs8).
  unfold serial_step in Hstep.
  destruct (starts_acquisition e) eqn:Hacq; simpl in Hstep.
  - case_bool_decide as Hp; [simpl in Hstep|done].
    unfold step in Hstep. destruct (mounted s); [simpl in Hstep|done].
    destruct e; try done; destruct (live_controls s); try done;
      injection Hstep as <-;
      (split; [apply commit_is_stable|apply commit_cam_wf; [exact Hwf|exact Hp]]).
  - unfold step in Hstep. destruct (mounted s); [cbn [negb] in Hstep|done].
    destruct e; try done.
    + injection Hstep as <-.
      apply (commit_keeps_inv _ s); first [assumption|reflexivity].
    + destruct (live_controls s); try done. injection Hstep as <-.
      apply (commit_keeps_inv _ s); assumption.
    + destruct (live_controls s); try done. injection Hstep as <-.
      apply (commit_keeps_inv _ s); assumption.
    + destruct (live_controls s); try done. injection Hstep as <-.
      apply (commit_keeps_inv _ s); assumption.
    + destruct (gum_pending (browser s) !! request) as [c|] eqn:Hr; [|done].
      destruct (open_stream c w h (set_gum_pending (delete request) (browser s)))
        as [ms br] eqn:Hopen.
      injection Hstep as <-.
      eapply commit_keeps_inv; [|reflexivity|by eapply resolved_cam_wf].
      unfold stable, setupCamera_resolved in *. simpl. by case_match.
    + destruct (gum_pending (browser s) !! request) as [c|] eqn:Hr; [|done].
      injection Hstep as <-.
      eapply commit_keeps_inv; [|reflexivity|by eapply rejected_cam_wf].
      exact Hst.
    + destruct (toBlob_pending (browser s)) as [|req rest]; [done|].
      injection Hstep as <-.
      set (s1 := with_browser (set_toBlob_pending (λ _, rest)) s).
      destruct (handlers_cam s1) as (_ & _ & _ & _ & Hc & _).
      destruct (handlers_stable s1 Hst) as (_ & _ & _ & _ & _ & Hs & _).
      apply (commit_keeps_inv _ s); [apply Hs|by rewrite Hc|done].
    + assert (s' = ondataavailable data s) as ->
        by (repeat case_match; congruence).
      split; [|by rewrite Hc6].
      clear Hstep. unfold stable, ondataavailable in *. case_match; exact Hst.
    + assert (s' = with_browser (recorder_stop recorder) s) as ->
        by (repeat case_match; congruence).
      by split.
    + assert (s' = commit (onstop (with_browser (recorder_stopped recorder) s)))
        as -> by (repeat case_match; congruence).
      set (s1 := with_browser (recorder_stopped recorder) s).
      destruct (handlers_cam s1) as (_ & _ & _ & Hc & _).
      destruct (handlers_stable s1 Hst) as (_ & _ & _ & _ & Hs & _).
      apply (commit_keeps_inv _ s); [apply Hs|by rewrite Hc|done].
    + injection Hstep as <-. by apply unmount_inv.
Qed.

Lemma serial_run_inv (evs : list Event) (s s' : System) :
  serial_run evs s = Some s' → camera_inv s → camera_inv s'.
Proof.
  revert s. induction evs as [|e evs IH]; intros s Hrun Hinv; simpl in Hrun.
  - by simplify_eq.
  - destruct (serial_step e s) as [s1|] eqn:Hstep; [|done].
    eapply IH; [done|]. by eapply serial_step_inv.
Qed.

Lemma mount_inv (b : Browser) :
  live_tracks b = ∅ → gum_pending b = ∅ → streams b = [] →
  camera_inv (mount b).
Proof.
  intros Hl Hp Hs. split; [done|]. split; simpl.
  - rewrite Hs. intros ms t Hin. by apply elem_of_nil in Hin.
  - rewrite Hs. intros ms1 ms2 t Hin. by apply elem_of_nil in Hin.
  - done.
  - right. rewrite Hl, Hp. split; [done|]. eexists _, _. apply insert_empty.
Qed.

(** In a session in which no acquisition is started while another one is
    pending, every stream with a live track is the stream the component
    holds, and none is live while a request is pending. *)
Lemma serial_sessions_hold_one_stream (b : Browser) (evs : list Event) (s : System) :
  live_tracks b = ∅ → gum_pending b = ∅ → streams b = [] →
  serial_run evs (mount b) = Some s →
  ∀ ms, ms ∈ open_handles (browser s) →
        stream (st s) = Some ms ∧ gum_pending (browser s) = ∅.
Proof.
  intros Hl Hp Hs Hrun ms Hin.
  destruct (serial_run_inv evs (mount b) s Hrun (mount_inv b Hl Hp Hs))
    as [_ [Hf Hd Hh Hlive]]. simpl in *.
  unfold open_handles in Hin. apply list_elem_of_filter in Hin as [Hopen Hin].
  apply Is_true_true, stream_live_spec in Hopen as (t & Ht & Htl).
  destruct Hlive as [[Hp0 Hlive]|[Hl0 _]].
  - split; [|done]. destruct (Hlive t Htl) as (ms' & Hheld & Ht').
    rewrite Hheld. f_equal. eapply Hd; eauto.
  - rewrite Hl0 in Htl. by apply elem_of_empty in Htl.
Qed.

(** The session of C4 is not serial: its second flip arrives while a request
    is pending.  With each flip answered before the next, one stream is
    open at the end. *)
Example serial_session_demo :
  serial_run [Resolved 0 1280 720; ClickFlip; ClickFlip;
              Resolved 1 1280 720; Resolved 2 1280 720] (mount chrome) = None
  ∧ ∃ s, serial_run [Resolved 0 1280 720; ClickFlip; Resolved 1 1280 720;
                     ClickFlip; Resolved 2 1280 720] (mount chrome) = Some s
         ∧ map stream_id (open_handles (browser s)) = [2].
Proof.
  split; [by vm_compute|]. eexists. split; [vm_compute; reflexivity|].
  by vm_compute.
Qed.

(** * The rest of the component *)

(** ** The event loop, as a relation *)

Lemma step_handles (e : Event) (s s' : System) :
  step e s = Some s' →
  mounted s = true
  ∧ ((∃ x, handles e s x ∧ s' = commit x)
     ∨ (∃ r data, e = DataAvailable r data ∧ s' = ondataavailable data s)
     ∨ (∃ r, e = TracksEnded r ∧ s' = with_browser (recorder_stop r) s)
     ∨ (e = Unmount ∧ s' = unmount s)).
Proof.
  unfold step, live_controls. intros Hstep.
  destruct (mounted s); [cbn [negb] in Hstep|done]. split; [done|].
  destruct e.
  - injection Hstep as <-. left. eexists. split; [constructor|done].
  - destruct (preview (st s)) eqn:Hp; [done|]. injection Hstep as <-.
    left. eexists. split; [by constructor|done].
  - destruct (preview (st s)) eqn:Hp; [done|]. injection Hstep as <-.
    left. eexists. split; [by constructor|done].
  - destruct (preview (st s)) eqn:Hp; [done|]. injection Hstep as <-.
    left. eexists. split; [by constructor|done].
  - destruct (preview (st s)) eqn:Hp; [done|]. injection Hstep as <-.
    left. eexists. split; [by constructor|done].
  - destruct (preview (st s)) eqn:Hp; [|done]. injection Hstep as <-.
    left. eexists. split; [by econstructor|done].
  - destruct (preview (st s)) eqn:Hp; [|done]. injection Hstep as <-.
    left. eexists. split; [by econstructor|done].
  - destruct (gum_pending (browser s) !! request) as [c|] eqn:Hr; [|done].
    destruct (open_stream c w h (set_gum_pending (delete request) (browser s)))
      as [ms br] eqn:Hopen.
    injection Hstep as <-. left. eexists. split; [by econstructor|done].
  - destruct (gum_pending (browser s) !! request) as [c|] eqn:Hr; [|done].
    injection Hstep as <-. left. eexists. split; [by econstructor|done].
  - destruct (toBlob_pending (browser s)) as [|req rest] eqn:Hq; [done|].
    injection Hstep as <-. left. eexists. split; [by econstructor|done].
  - right. left. exists recorder, data. split; [done|].
    repeat case_match; congruence.
  - right. right. left. exists recorder. split; [done|].
    repeat case_match; congruence.
  - destruct (recorders (browser s) !! recorder) as [m|] eqn:Hm; [|done].
    destruct (rec_stopping m) eqn:Hstop; [|done]. injection Hstep as <-.
    left. eexists. split; [by econstructor|done].
  - injection Hstep as <-. by repeat right.
Qed.

(** A property kept by every handler followed by its commit, by a chunk
    delivery, by a recorder stopping on its own and by the unmount holds in
    every state a session reaches. *)
Lemma run_invariant (P : System → Prop) :
  (∀ e s x, mounted s = true → P s → handles e s x → P (commit x)) →
  (∀ data s, P s → P (ondataavailable data s)) →
  (∀ r s, P s → P (with_browser (recorder_stop r) s)) →
  (∀ s, P s → P (unmount s)) →
  ∀ evs s s', P s → run evs s = Some s' → P s'.
Proof.
  intros Hh Hd Ht Hu evs. induction evs as [|e evs IH]; intros s s' HP Hrun.
  - simpl in Hrun. by simplify_eq.
  - simpl in Hrun. destruct (step e s) as [s1|] eqn:Hstep; [|done].
    apply (IH s1 s'); [|done].
    apply step_handles in Hstep
      as (Hm & [(x & Hx & ->)|[(r & d & _ & ->)|[(r & _ & ->)|(_ & ->)]]]);
      eauto.
Qed.

(** ** The preview reference *)

Lemma shutter_keeps_preview (s : System) :
  preview (st (handleShutterClick s)) = preview (st s)
  ∧ previewBlob (st (handleShutterClick s)) = previewBlob (st s)
  ∧ object_urls (browser (handleShutterClick s)) = object_urls (browser s).
Proof.
  unfold handleShutterClick, handleTakePicture, handleStopRecording,
    handleStartRecording, new_MediaRecorder_with, new_MediaRecorder.
  by repeat case_match; simplify_eq.
Qed.

Lemma preview_registered_handles (e : Event) (s x : System) :
  preview_registered s → handles e s x → preview_registered x.
Proof.
  unfold preview_registered. intros HP Hh. destruct Hh; simpl; try done.
  - by destruct (shutter_keeps_preview s) as (-> & -> & ->).
  - unfold handleRetake. by destruct (preview (st s)).
  - unfold handleConfirm. destruct (previewBlob (st s)) eqn:E; simpl;
      rewrite ?E; exact HP.
  - assert (object_urls br = object_urls (browser s)) as Hurls
      by (unfold open_stream in *; by simplify_eq).
    unfold setupCamera_resolved. simpl.
    destruct (videoRef (refs s)); simpl; by rewrite Hurls.
  - destruct (toBlob_result req bytes) as [blob|]; simpl; [|exact HP].
    by rewrite lookup_insert_eq.
  - by rewrite lookup_insert_eq.
Qed.

Lemma preview_registered_commit (x : System) :
  preview_registered x → preview_registered (commit x).
Proof.
  unfold preview_registered.
  destruct (commit_frame x) as (-> & _).
  by destruct (commit_browser x) as (_ & -> & _).
Qed.

Lemma preview_registered_run (b : Browser) (evs : list Event) (s : System) :
  run evs (mount b) = Some s → preview_registered s.
Proof.
  intros Hrun.
  apply (run_invariant preview_registered) with (evs := evs) (s := mount b);
    [| | | |done|done].
  - intros e s0 x _ HP Hh. apply preview_registered_commit.
    by eapply preview_registered_handles.
  - intros data s0. unfold ondataavailable. by case_match.
  - done.
  - intros s0. unfold preview_registered, unmount. simpl.
    destruct (effect_cleanup_frame s0) as (-> & _).
    by destruct (effect_cleanup_browser s0) as (_ & -> & _).
Qed.

(** X1: in every state of a session, [preview] and [previewBlob] are set or
    unset together, and a preview URL on screen is a registered object URL
    of exactly the stored blob: the component never shows a revoked
    reference. *)
Theorem preview_is_live_reference (b : Browser) (evs : list Event) (s : System) :
  run evs (mount b) = Some s →
  (preview (st s) = None ↔ previewBlob (st s) = None)
  ∧ ∀ url, preview (st s) = Some url →
      ∃ blob, previewBlob (st s) = Some blob
              ∧ object_urls (browser s) !! url = Some blob.
Proof.
  intros Hrun. pose proof (preview_registered_run b evs s Hrun) as HP.
  unfold preview_registered in HP.
  destruct (preview (st s)) as [url|], (previewBlob (st s)) as [blob|];
    try done.
  split; [done|]. intros ? [= <-]. eauto.
Qed.

Lemma preview_is_live_reference_witness :
  ∃ s, run photo_preview_events (mount chrome) = Some s
       ∧ (preview (st s) = None ↔ previewBlob (st s) = None)
       ∧ ∀ url, preview (st s) = Some url →
           ∃ blob, previewBlob (st s) = Some blob
                   ∧ object_urls (browser s) !! url = Some blob.
Proof.
  eexists. split; [vm_compute; reflexivity|].
  apply (preview_is_live_reference chrome photo_preview_events).
  vm_compute. reflexivity.
Defined.

(** ** Commits *)

Lemma commit_settled (s : System) : settled s → commit s = s.
Proof.
  intros [Hst Hr]. unfold stable, rendered in *.
  assert (Hrv : render_video s = s).
  { unfold render_video.
    destruct s as [v [vr mr ch] h m b l]; simpl in *.
    by destruct (preview v), vr. }
  unfold commit. rewrite Hrv. by rewrite bool_decide_eq_true_2.
Qed.

Lemma commit_is_rendered (s : System) : rendered (commit s).
Proof.
  assert (Hrv : rendered (render_video s)).
  { unfold rendered, render_video.
    destruct (preview (st s)) eqn:Hp, (videoRef (refs s)) eqn:Hv; simpl;
      by rewrite ?Hp, ?Hv. }
  unfold commit. case_bool_decide; [done|].
  unfold rendered in *.
  destruct (run_effect_frame (effect_cleanup (render_video s))) as (-> & -> & _).
  by destruct (effect_cleanup_frame (render_video s)) as (-> & -> & _).
Qed.

Lemma commit_is_settled (s : System) : settled (commit s).
Proof. split; [apply commit_is_stable|apply commit_is_rendered]. Qed.

(** Every state of a session that is still mounted is settled. *)
Lemma run_settled (b : Browser) (evs : list Event) (s : System) :
  run evs (mount b) = Some s → mounted s = true → settled s.
Proof.
  intros Hrun.
  apply (run_invariant (λ s, mounted s = true → settled s))
    with (evs := evs) (s := mount b); [| | | |done|done].
  - intros. apply commit_is_settled.
  - intros data s0 H Hm. unfold ondataavailable in *.
    destruct (0 <? blob_size data); [|by apply H]. by apply H.
  - intros r s0 H Hm. by apply H.
  - intros s0 _ Hm. unfold unmount in Hm. simpl in Hm. done.
Qed.

(** ** Retake *)

(** X2: retake from a preview clears [preview] and [previewBlob], revokes
    exactly the preview's object URL and calls nothing.  The stream, the
    mode and the facing direction are kept and no stream is requested; the
    live [<video>] element rendered now is a new one, with no [srcObject],
    whatever stream the component holds. *)
Theorem retake_returns_to_live_view (s : System) (url : nat) :
  mounted s = true → settled s → preview (st s) = Some url →
  ∃ s',
    step ClickRetake s = Some s'
    ∧ preview (st s') = None ∧ previewBlob (st s') = None
    ∧ object_urls (browser s') = delete url (object_urls (browser s))
    ∧ main_element s' = live_video
    ∧ videoRef (refs s') = Some {| srcObject := None |}
    ∧ stream (st s') = stream (st s)
    ∧ mode (st s') = mode (st s) ∧ facingMode (st s') = facingMode (st s)
    ∧ isRecording (st s') = isRecording (st s)
    ∧ live_tracks (browser s') = live_tracks (browser s)
    ∧ gum_pending (browser s') = gum_pending (browser s)
    ∧ log s' = log s.
Proof.
  intros Hm [Hst Hr] Hp.
  assert (Hv : videoRef (refs s) = None).
  { unfold rendered in Hr. rewrite Hp in Hr. by destruct (videoRef (refs s)). }
  assert (Hre : handleRetake s
                = with_browser (revokeObjectURL url)
                    (setPreviewBlob None (setPreview None s))).
  { unfold handleRetake. by rewrite Hp. }
  assert (Hc : commit (handleRetake s)
               = set_videoRef (Some {| srcObject := None |}) (handleRetake s)).
  { unfold commit, render_video. rewrite Hre. simpl. rewrite Hv.
    by rewrite bool_decide_eq_true_2. }
  exists (commit (handleRetake s)). split.
  { unfold step, live_controls. by rewrite Hm, Hp. }
  rewrite Hc, Hre. by repeat split.
Qed.

Lemma retake_returns_to_live_view_witness :
  ∃ s',
    step ClickRetake photo_preview_demo = Some s'
    ∧ preview (st s') = None ∧ previewBlob (st s') = None
    ∧ object_urls (browser s') = delete 0 (object_urls (browser photo_preview_demo))
    ∧ main_element s' = live_video
    ∧ videoRef (refs s') = Some {| srcObject := None |}
    ∧ stream (st s') = stream (st photo_preview_demo)
    ∧ mode (st s') = mode (st photo_preview_demo)
    ∧ facingMode (st s') = facingMode (st photo_preview_demo)
    ∧ isRecording (st s') = isRecording (st photo_preview_demo)
    ∧ live_tracks (browser s') = live_tracks (browser photo_preview_demo)
    ∧ gum_pending (browser s') = gum_pending (browser photo_preview_demo)
    ∧ log s' = log photo_preview_demo.
Proof.
  apply (retake_returns_to_live_view photo_preview_demo 0);
    [reflexivity| |reflexivity].
  split; [reflexivity|by vm_compute].
Defined.

(** ** Mode and facing *)

(** What a re-run of the effect does to a settled render whose dependencies
    changed. *)
Lemma commit_reacquires (x : System) :
  rendered x → effect_deps (hook x) ≠ (facingMode (st x), mode (st x)) →
  commit x = run_effect (effect_cleanup x).
Proof.
  intros Hr Hd.
  assert (Hrv : render_video x = x).
  { unfold rendered in Hr. unfold render_video.
    destruct x as [v [vr mr ch] h m b l]; simpl in *.
    by destruct (preview v), vr. }
  unfold commit. rewrite Hrv. by rewrite bool_decide_eq_false_2.
Qed.

Lemma run_effect_requests (y : System) :
  gum_pending (browser (run_effect y))
  = <[next_request (browser y) :=
        {| c_facingMode := facingMode (st y);
           c_width_ideal := 1920; c_height_ideal := 1080;
           c_audio := bool_decide (mode (st y) = video) |}]>
      (gum_pending (browser y))
  ∧ next_request (browser (run_effect y)) = S (next_request (browser y))
  ∧ streams (browser (run_effect y)) = streams (browser y).
Proof.
  repeat split.
  - change (cam_pending (cam (run_effect y)) = cam_pending
      {| cam_stream := None; cam_live := ∅;
         cam_pending := <[next_request (browser y) :=
            {| c_facingMode := facingMode (st y);
               c_width_ideal := 1920; c_height_ideal := 1080;
               c_audio := bool_decide (mode (st y) = video) |}]>
            (gum_pending (browser y));
         cam_streams := []; cam_next_track := 0; cam_next_request := 0 |}).
    by rewrite run_effect_cam.
  - change (cam_next_request (cam (run_effect y)) = S (next_request (browser y))).
    by rewrite run_effect_cam.
  - change (cam_streams (cam (run_effect y)) = streams (browser y)).
    by rewrite run_effect_cam.
Qed.

Lemma reacquire_spec (x : System) :
  let s' := run_effect (effect_cleanup x) in
  st s' = st x ∧ refs s' = refs x ∧ log s' = log x ∧ mounted s' = mounted x
  ∧ holds_live_stream s' = false
  ∧ gum_pending (browser s')
    = <[next_request (browser x) :=
          {| c_facingMode := facingMode (st x);
             c_width_ideal := 1920; c_height_ideal := 1080;
             c_audio := bool_decide (mode (st x) = video) |}]>
        (gum_pending (browser x))
  ∧ next_request (browser s') = S (next_request (browser x))
  ∧ streams (browser s') = streams (browser x)
  ∧ recorders (browser s') = recorders (browser x)
  ∧ object_urls (browser s') = object_urls (browser x).
Proof.
  intros s'. subst s'.
  destruct (run_effect_frame (effect_cleanup x)) as (Hst & Hrefs & Hm & Hl).
  destruct (effect_cleanup_frame x) as (Hst0 & Hrefs0 & _ & Hm0 & Hl0).
  destruct (effect_cleanup_shrinks x) as (_ & _ & Hp0 & Hs0 & _).
  destruct (effect_cleanup_browser x) as (_ & Hu0 & Hr0 & _).
  destruct (run_effect_requests (effect_cleanup x)) as (Hq1 & Hq2 & Hq3).
  assert (Hnr : next_request (browser (effect_cleanup x)) = next_request (browser x)).
  { unfold effect_cleanup. destruct (effect_stream (hook x)) as [ms|]; [|done].
    simpl. by destruct (stop_all_tracks_rest ms (browser x)) as (_ & _ & -> & _). }
  simpl in Hp0, Hs0.
  rewrite Hst, Hrefs, Hm, Hl, Hst0, Hrefs0, Hm0, Hl0.
  do 4 (split; [done|]). split.
  { unfold holds_live_stream. rewrite Hst, Hst0.
    destruct (stream (st x)) as [ms|] eqn:Hs; [|done].
    unfold run_effect, with_hook; cbn [browser].
    apply setupCamera_releases_held_stream. by rewrite Hst0. }
  split. { by rewrite Hq1, Hst0, Hnr, Hp0. }
  split. { by rewrite Hq2, Hnr. }
  split. { by rewrite Hq3, Hs0. }
  unfold run_effect, with_hook; cbn [browser].
  destruct (setupCamera_browser (facingMode (st (effect_cleanup x)))
              (mode (st (effect_cleanup x))) (effect_cleanup x))
    as (_ & -> & -> & _).
  by rewrite Hu0, Hr0.
Qed.

(** X3: clicking the button of the mode that is already selected changes
    nothing: no state change, no track stopped, no stream requested. *)
Theorem selecting_the_current_mode_changes_nothing (s : System) (m : CaptureMode) :
  mounted s = true → settled s → preview (st s) = None → mode (st s) = m →
  step (click_mode m) s = Some s.
Proof.
  intros Hm Hs Hp Hmode.
  assert (Hset : setMode m s = s).
  { destruct s as [[] ? ? ? ? ?]; simpl in *. by subst. }
  assert (step (click_mode m) s = Some (commit (setMode m s))) as ->.
  { unfold step, live_controls. rewrite Hm, Hp. by destruct m. }
  by rewrite Hset, commit_settled.
Qed.

Lemma selecting_the_current_mode_changes_nothing_witness :
  step (click_mode photo) streaming_demo = Some streaming_demo.
Proof.
  apply (selecting_the_current_mode_changes_nothing streaming_demo photo);
    try reflexivity.
  split; [reflexivity|by vm_compute].
Defined.

(** X4: clicking the button of the other mode stores it, stops every track of
    the stream held so far (which stays in [stream]) and issues one
    [getUserMedia] request for the current facing direction, 1920 x 1080 as
    ideal size, with audio exactly when the new mode is video. *)
Theorem selecting_another_mode_reacquires (s : System) (m : CaptureMode) :
  mounted s = true → settled s → preview (st s) = None → mode (st s) ≠ m →
  ∃ s',
    step (click_mode m) s = Some s'
    ∧ mode (st s') = m
    ∧ facingMode (st s') = facingMode (st s)
    ∧ stream (st s') = stream (st s)
    ∧ holds_live_stream s' = false
    ∧ gum_pending (browser s')
      = <[next_request (browser s) :=
            {| c_facingMode := facingMode (st s);
               c_width_ideal := 1920; c_height_ideal := 1080;
               c_audio := bool_decide (m = video) |}]>
          (gum_pending (browser s))
    ∧ streams (browser s') = streams (browser s)
    ∧ log s' = log s.
Proof.
  intros Hm [Hst Hr] Hp Hmode.
  assert (Hstep : step (click_mode m) s = Some (commit (setMode m s))).
  { unfold step, live_controls. rewrite Hm, Hp. by destruct m. }
  rewrite Hstep. eexists. split; [done|].
  rewrite commit_reacquires.
  - destruct (reacquire_spec (setMode m s))
      as (-> & _ & -> & _ & -> & -> & _ & -> & _).
    done.
  - exact Hr.
  - unfold stable in Hst. simpl. rewrite Hst. congruence.
Qed.

Lemma selecting_another_mode_reacquires_witness :
  ∃ s',
    step (click_mode video) streaming_demo = Some s'
    ∧ mode (st s') = video
    ∧ facingMode (st s') = environment
    ∧ stream (st s') = stream (st streaming_demo)
    ∧ holds_live_stream s' = false
    ∧ gum_pending (browser s')
      = <[1 := {| c_facingMode := environment;
                  c_width_ideal := 1920; c_height_ideal := 1080;
                  c_audio := true |}]> ∅
    ∧ streams (browser s') = streams (browser streaming_demo)
    ∧ log s' = [].
Proof.
  apply (selecting_another_mode_reacquires streaming_demo video);
    try reflexivity; [|done].
  split; [reflexivity|by vm_compute].
Defined.

(** X5: the flip button stores the other facing direction, stops the held
    stream and requests a stream of the new direction, with audio exactly in
    video mode.  A second flip restores the direction; together the two
    flips have issued two requests. *)
Theorem flip_toggles_and_reacquires (s : System) :
  mounted s = true → settled s → preview (st s) = None →
  ∃ s1 s2,
    step ClickFlip s = Some s1
    ∧ facingMode (st s1) = flipped (facingMode (st s))
    ∧ mode (st s1) = mode (st s)
    ∧ holds_live_stream s1 = false
    ∧ gum_pending (browser s1)
      = <[next_request (browser s) :=
            {| c_facingMode := flipped (facingMode (st s));
               c_width_ideal := 1920; c_height_ideal := 1080;
               c_audio := bool_decide (mode (st s) = video) |}]>
          (gum_pending (browser s))
    ∧ step ClickFlip s1 = Some s2
    ∧ facingMode (st s2) = facingMode (st s)
    ∧ next_request (browser s2) = 2 + next_request (browser s).
Proof.
  intros Hm [Hst Hr] Hp.
  assert (Hflip : ∀ x, facingMode (st (handleFlipCamera x)) = flipped (facingMode (st x))).
  { intros x. simpl. by destruct (facingMode (st x)). }
  assert (Hne : ∀ f : FacingMode, f ≠ flipped f) by (by intros []).
  set (s1 := commit (handleFlipCamera s)).
  assert (Hs1 : s1 = run_effect (effect_cleanup (handleFlipCamera s))).
  { apply commit_reacquires; [exact Hr|].
    rewrite Hflip. unfold stable in Hst. simpl. rewrite Hst.
    intros [= H]. by apply Hne in H. }
  destruct (reacquire_spec (handleFlipCamera s))
    as (Hst1 & Hrefs1 & Hlog1 & Hm1 & Hlive1 & Hp1 & Hn1 & _).
  rewrite <- Hs1 in Hst1, Hrefs1, Hlog1, Hm1, Hlive1, Hp1, Hn1.
  assert (Hsettled1 : settled s1) by apply commit_is_settled.
  set (s2 := commit (handleFlipCamera s1)).
  assert (Hs2 : s2 = run_effect (effect_cleanup (handleFlipCamera s1))).
  { apply commit_reacquires; [exact (proj2 Hsettled1)|].
    rewrite Hflip. destruct Hsettled1 as [Hst' _]. unfold stable in Hst'.
    simpl. rewrite Hst'. intros [= H]. by apply Hne in H. }
  destruct (reacquire_spec (handleFlipCamera s1))
    as (Hst2 & _ & _ & _ & _ & _ & Hn2 & _).
  rewrite <- Hs2 in Hst2, Hn2.
  exists s1, s2. split.
  { unfold step, live_controls. by rewrite Hm, Hp. }
  split. { by rewrite Hst1, Hflip. }
  split. { by rewrite Hst1. }
  split; [done|]. split. { rewrite Hp1. by rewrite Hflip. }
  split. { unfold step, live_controls. rewrite Hm1, Hst1. simpl. by rewrite Hm, Hp. }
  split. { rewrite Hst2, Hflip, Hst1, Hflip. by destruct (facingMode (st s)). }
  rewrite Hn2. simpl. by rewrite Hn1.
Qed.

Lemma flip_toggles_and_reacquires_witness :
  ∃ s1 s2,
    step ClickFlip streaming_demo = Some s1
    ∧ facingMode (st s1) = user
    ∧ mode (st s1) = photo
    ∧ holds_live_stream s1 = false
    ∧ gum_pending (browser s1)
      = <[1 := {| c_facingMode := user;
                  c_width_ideal := 1920; c_height_ideal := 1080;
                  c_audio := false |}]> ∅
    ∧ step ClickFlip s1 = Some s2
    ∧ facingMode (st s2) = environment
    ∧ next_request (browser s2) = 3.
Proof.
  apply (flip_toggles_and_reacquires streaming_demo); try reflexivity.
  split; [reflexivity|by vm_compute].
Defined.

(** ** The shutter *)

(** X6: in video mode, a shutter press before any stream has been stored
    does nothing: no recorder is created, [isRecording] stays false, nothing
    is logged. *)
Theorem shutter_without_stream_does_nothing (s : System) :
  mounted s = true → settled s → preview (st s) = None →
  mode (st s) = video → isRecording (st s) = false → stream (st s) = None →
  step ClickShutter s = Some s.
Proof.
  intros Hm Hs Hp Hmode Hrec Hstream.
  unfold step, live_controls, handleShutterClick, handleStartRecording.
  rewrite Hm, Hp, Hmode, Hrec, Hstream. simpl. by rewrite commit_settled.
Qed.

Lemma shutter_without_stream_does_nothing_witness :
  step ClickShutter video_waiting_demo = Some video_waiting_demo.
Proof.
  apply (shutter_without_stream_does_nothing video_waiting_demo);
    try reflexivity.
  split; [reflexivity|by vm_compute].
Defined.

(** X7: in photo mode a shutter press only ever queues a snapshot: the state
    cells (also a set [isRecording]), the refs, the recorders, the tracks,
    the requests, the object URLs and the log stay as they are; without a
    2D context nothing changes at all. *)
Theorem photo_shutter_only_queues_a_snapshot (s : System) :
  mounted s = true → settled s → preview (st s) = None → mode (st s) = photo →
  ∃ s',
    step ClickShutter s = Some s'
    ∧ st s' = st s ∧ refs s' = refs s ∧ log s' = log s
    ∧ recorders (browser s') = recorders (browser s)
    ∧ live_tracks (browser s') = live_tracks (browser s)
    ∧ gum_pending (browser s') = gum_pending (browser s)
    ∧ object_urls (browser s') = object_urls (browser s)
    ∧ (context_2d (browser s) = false → s' = s).
Proof.
  intros Hm Hs Hp Hmode.
  assert (Hstep : step ClickShutter s = Some (commit (handleTakePicture s))).
  { unfold step, live_controls, handleShutterClick. by rewrite Hm, Hp, Hmode. }
  assert (Hset : settled (handleTakePicture s)).
  { unfold handleTakePicture. by repeat case_match. }
  rewrite Hstep, (commit_settled _ Hset). eexists. split; [done|].
  unfold handleTakePicture.
  destruct (videoRef (refs s)); [|done].
  destruct (context_2d (browser s)); done.
Qed.

Lemma photo_shutter_only_queues_a_snapshot_witness :
  ∃ s',
    step ClickShutter no_canvas_demo = Some s'
    ∧ st s' = st no_canvas_demo ∧ refs s' = refs no_canvas_demo
    ∧ log s' = log no_canvas_demo
    ∧ recorders (browser s') = recorders (browser no_canvas_demo)
    ∧ live_tracks (browser s') = live_tracks (browser no_canvas_demo)
    ∧ gum_pending (browser s') = gum_pending (browser no_canvas_demo)
    ∧ object_urls (browser s') = object_urls (browser no_canvas_demo)
    ∧ (context_2d (browser no_canvas_demo) = false → s' = no_canvas_demo).
Proof.
  apply (photo_shutter_only_queues_a_snapshot no_canvas_demo); try reflexivity.
  split; [reflexivity|by vm_compute].
Defined.

(** ** A stream arrives *)

(** X8: when [getUserMedia] resolves, the new stream is stored in [stream]
    with whatever frame size the device settled on, it is live, and the
    request is no longer pending.  It is attached to the live [<video>]
    element when that element is rendered; while a preview is shown there
    is no such element and the stream is stored only. *)
Theorem resolved_stream_is_stored_and_shown (s : System) (r : nat)
    (c : MediaStreamConstraints) (w h : nat) :
  mounted s = true → settled s → gum_pending (browser s) !! r = Some c →
  ∃ s' ms,
    step (Resolved r w h) s = Some s'
    ∧ stream (st s') = Some ms
    ∧ frame_width ms = w ∧ frame_height ms = h
    ∧ holds_live_stream s' = true
    ∧ gum_pending (browser s') = delete r (gum_pending (browser s))
    ∧ videoRef (refs s')
      = match preview (st s) with
        | None => Some {| srcObject := Some ms |}
        | Some _ => None
        end
    ∧ log s' = log s.
Proof.
  intros Hm [Hst Hr] Hp.
  destruct (open_stream c w h (set_gum_pending (delete r) (browser s)))
    as [ms br] eqn:Hopen.
  set (x := setupCamera_resolved ms (with_browser (λ _, br) s)).
  assert (Hstep : step (Resolved r w h) s = Some (commit x)).
  { unfold step. by rewrite Hm, Hp, Hopen. }
  assert (Hvid : videoRef (refs x)
                 = match preview (st s) with
                   | None => Some {| srcObject := Some ms |}
                   | Some _ => None
                   end).
  { unfold x, setupCamera_resolved, rendered in *. simpl.
    destruct (preview (st s)), (videoRef (refs s)) eqn:Hv; simpl in *;
      rewrite ?Hv; done. }
  assert (Hset : settled x).
  { split.
    - unfold x, stable, setupCamera_resolved in *. simpl.
      destruct (videoRef (refs s)); exact Hst.
    - unfold rendered. rewrite Hvid. unfold x, setupCamera_resolved. simpl.
      destruct (videoRef (refs s)); simpl; by destruct (preview (st s)). }
  rewrite Hstep, (commit_settled _ Hset). exists x, ms.
  split; [done|].
  assert (Hms : frame_width ms = w ∧ frame_height ms = h
                ∧ next_track (browser s) ∈ stream_tracks ms
                ∧ live_tracks br = list_to_set (stream_tracks ms) ∪ live_tracks (browser s)
                ∧ gum_pending br = delete r (gum_pending (browser s))).
  { unfold open_stream in Hopen. simplify_eq. simpl. repeat split.
    destruct (c_audio c); apply elem_of_cons; by left. }
  destruct Hms as (Hw & Hh & Ht & Hlive & Hpend).
  assert (Hbr : browser x = br ∧ st x = st (setStream (Some ms) s) ∧ log x = log s).
  { unfold x, setupCamera_resolved. simpl. by destruct (videoRef (refs s)). }
  destruct Hbr as (Hbr & Hstx & Hlog).
  split. { by rewrite Hstx. }
  do 2 (split; [done|]). split.
  { unfold holds_live_stream. rewrite Hstx, Hbr. simpl.
    apply stream_live_spec. exists (next_track (browser s)). split; [done|].
    rewrite Hlive. apply elem_of_union. left. by apply elem_of_list_to_set. }
  by rewrite Hbr.
Qed.

Lemma resolved_stream_is_stored_and_shown_witness :
  ∃ s' ms,
    step (Resolved 0 4032 3024) (mount chrome) = Some s'
    ∧ stream (st s') = Some ms
    ∧ frame_width ms = 4032 ∧ frame_height ms = 3024
    ∧ holds_live_stream s' = true
    ∧ gum_pending (browser s') = delete 0 (gum_pending (browser (mount chrome)))
    ∧ videoRef (refs s') = Some {| srcObject := Some ms |}
    ∧ log s' = [].
Proof.
  apply (resolved_stream_is_stored_and_shown (mount chrome) 0
           {| c_facingMode := environment; c_width_ideal := 1920;
              c_height_ideal := 1080; c_audio := false |} 4032 3024);
    try reflexivity.
  split; [reflexivity|by vm_compute].
Defined.

(** ** A whole recording *)

Lemma start_recording_spec (s : System) (ms : MediaStream) :
  stream (st s) = Some ms →
  ∃ m,
    mediaRecorderRef (refs (handleStartRecording s)) = Some (next_recorder (browser s))
    ∧ recorders (browser (handleStartRecording s)) !! next_recorder (browser s) = Some m
    ∧ rec_state m = recording ∧ rec_stopping m = false ∧ rec_stream m = ms
    ∧ rec_mimeType m
      = (if bool_decide ("video/webm; codecs=vp9" ∈ supported_types (browser s))
         then "video/webm; codecs=vp9" else default_type (browser s))
    ∧ isRecording (st (handleStartRecording s)) = true
    ∧ recordedChunksRef (refs (handleStartRecording s)) = []
    ∧ mode (st (handleStartRecording s)) = mode (st s)
    ∧ preview (st (handleStartRecording s)) = preview (st s)
    ∧ mounted (handleStartRecording s) = mounted s
    ∧ log (handleStartRecording s)
      = log s ++ (if bool_decide ("video/webm; codecs=vp9" ∈ supported_types (browser s))
                  then []
                  else [console_error
                          "Error creating MediaRecorder with vp9, falling back:"]).
Proof.
  intros Hs. unfold handleStartRecording, new_MediaRecorder_with. rewrite Hs.
  simpl. case_bool_decide; simpl.
  - eexists. split; [done|]. split.
    { by rewrite lookup_alter_eq, lookup_alter_eq, lookup_insert_eq. }
    simpl. repeat split. by rewrite app_nil_r.
  - eexists. split; [done|]. split.
    { by rewrite lookup_alter_eq, lookup_insert_eq. }
    done.
Qed.

(** X9: when the browser can record "video/webm; codecs=vp9", the shutter
    in video mode starts a new recorder on the held stream with that type,
    empties the retained chunks, sets [isRecording] and logs nothing. *)
Theorem preferred_codec_is_used (s : System) (ms : MediaStream) :
  mounted s = true → preview (st s) = None →
  mode (st s) = video → isRecording (st s) = false →
  stream (st s) = Some ms →
  "video/webm; codecs=vp9" ∈ supported_types (browser s) →
  ∃ s' m,
    step ClickShutter s = Some s'
    ∧ mediaRecorderRef (refs s') = Some (next_recorder (browser s))
    ∧ recorders (browser s') !! next_recorder (browser s) = Some m
    ∧ rec_stream m = ms
    ∧ rec_mimeType m = "video/webm; codecs=vp9"
    ∧ rec_state m = recording
    ∧ isRecording (st s') = true
    ∧ recordedChunksRef (refs s') = []
    ∧ log s' = log s.
Proof.
  intros Hm Hp Hmode Hrec Hstream Hvp9.
  destruct (start_recording_spec s ms Hstream)
    as (m & Href & Hlook & Hstate & _ & Hms & Hty & Hisrec & Hch & _ & _ & _ & Hlog).
  rewrite bool_decide_eq_true_2 in Hty, Hlog by done. rewrite app_nil_r in Hlog.
  exists (commit (handleStartRecording s)), m.
  destruct (commit_frame (handleStartRecording s)) as (-> & -> & -> & _ & ->).
  destruct (commit_browser (handleStartRecording s)) as (_ & _ & -> & _).
  split; [|done].
  unfold step, live_controls, handleShutterClick. by rewrite Hm, Hp, Hmode, Hrec.
Qed.

Lemma preferred_codec_is_used_witness :
  ∃ s' m,
    step ClickShutter second_take_demo = Some s'
    ∧ mediaRecorderRef (refs s') = Some 1
    ∧ recorders (browser s') !! 1 = Some m
    ∧ rec_stream m = {| stream_id := 1; stream_tracks := [1; 2];
                        frame_width := 640; frame_height := 480 |}
    ∧ rec_mimeType m = "video/webm; codecs=vp9"
    ∧ rec_state m = recording
    ∧ isRecording (st s') = true
    ∧ recordedChunksRef (refs s') = []
    ∧ log s' = [].
Proof.
  apply (preferred_codec_is_used second_take_demo
           {| stream_id := 1; stream_tracks := [1; 2];
              frame_width := 640; frame_height := 480 |});
    try reflexivity.
  apply elem_of_cons. by left.
Defined.

Lemma deliver_spec (ds : list Blob) (s : System) :
  st (deliver ds s) = st s ∧ browser (deliver ds s) = browser s
  ∧ mounted (deliver ds s) = mounted s ∧ log (deliver ds s) = log s
  ∧ mediaRecorderRef (refs (deliver ds s)) = mediaRecorderRef (refs s)
  ∧ recordedChunksRef (refs (deliver ds s))
    = recordedChunksRef (refs s) ++ filter (λ d, 0 < blob_size d) ds.
Proof.
  unfold deliver. revert s. induction ds as [|d ds IH]; intros s; simpl.
  - by rewrite app_nil_r.
  - destruct (IH (ondataavailable d s)) as (-> & -> & -> & -> & -> & ->).
    rewrite ondataavailable_chunks. unfold ondataavailable.
    rewrite filter_cons.
    destruct (0 <? blob_size d) eqn:Hsz.
    + apply Nat.ltb_lt in Hsz. rewrite decide_True by done.
      by rewrite <- app_assoc.
    + apply Nat.ltb_ge in Hsz. rewrite decide_False by lia. done.
Qed.

Lemma run_deliver (ds : list Blob) (rest : list Event) (s : System) (r : nat)
    (m : MediaRecorder) :
  mounted s = true → recorders (browser s) !! r = Some m →
  rec_state m = recording ∨ rec_stopping m = true →
  run (map (DataAvailable r) ds ++ rest) s = run rest (deliver ds s).
Proof.
  unfold deliver. revert s. induction ds as [|d ds IH]; intros s Hm Hr Hst; [done|].
  simpl. unfold step. rewrite Hm, Hr. simpl.
  assert (match rec_state m with
          | inactive => if rec_stopping m then Some (ondataavailable d s) else None
          | recording => Some (ondataavailable d s)
          end = Some (ondataavailable d s)) as ->.
  { destruct Hst as [-> | ->]; [done|]. by destruct (rec_state m). }
  apply IH; [| |done]; unfold ondataavailable; by case_match.
Qed.

Lemma concat_nonempty (ds : list Blob) :
  concat (map blob_data (filter (λ d, 0 < blob_size d) ds))
  = concat (map blob_data ds).
Proof.
  induction ds as [|d ds IH]; [done|]. rewrite filter_cons.
  case_decide as Hsz; simpl; rewrite IH; [done|].
  unfold blob_size in Hsz. destruct (blob_data d); [done|simpl in Hsz; lia].
Qed.

(** X10: a whole recording.  From a state in video mode that holds a stream
    and is not recording, whatever [recordedChunksRef] still contains: the
    shutter, chunks [ds1], the shutter again, the chunks [ds2] flushed by
    the stopping recorder, and its "stop" event leave as artifact exactly
    the bytes of [ds1] and [ds2] in order, typed "video/webm"; the recorder
    is inactive and the chunks retained are the non-empty ones delivered. *)
Theorem recording_yields_delivered_bytes (s : System) (ms : MediaStream)
    (ds1 ds2 : list Blob) :
  mounted s = true → preview (st s) = None →
  mode (st s) = video → isRecording (st s) = false →
  stream (st s) = Some ms →
  ∃ s',
    run (ClickShutter :: map (DataAvailable (next_recorder (browser s))) ds1
           ++ ClickShutter :: map (DataAvailable (next_recorder (browser s))) ds2
           ++ [Stopped (next_recorder (browser s))]) s = Some s'
    ∧ previewBlob (st s')
      = Some {| blob_data := concat (map blob_data (ds1 ++ ds2));
                blob_type := "video/webm" |}
    ∧ (∃ url, preview (st s') = Some url ∧ main_element s' = video_player url)
    ∧ isRecording (st s') = false
    ∧ recordedChunksRef (refs s') = filter (λ d, 0 < blob_size d) (ds1 ++ ds2)
    ∧ recorder_open (browser s') (next_recorder (browser s)) = false.
Proof.
  intros Hm Hp Hmode Hrec Hstream.
  set (r := next_recorder (browser s)).
  destruct (start_recording_spec s ms Hstream)
    as (m1 & Href & Hlook & Hstate & Hstop & _ & _ & Hisrec & Hch & Hmode1 & Hp1 & Hm1 & _).
  fold r in Href, Hlook.
  (* the recording starts *)
  set (s1 := commit (handleStartRecording s)).
  assert (Hstep1 : step ClickShutter s = Some s1).
  { unfold step, live_controls, handleShutterClick. by rewrite Hm, Hp, Hmode, Hrec. }
  destruct (commit_frame (handleStartRecording s)) as (Hst1 & Href1 & Hch1 & Hmnt1 & _).
  destruct (commit_browser (handleStartRecording s)) as (_ & Hurl1 & Hrs1 & _).
  fold s1 in Hst1, Href1, Hch1, Hmnt1, Hurl1, Hrs1.
  (* chunks arrive *)
  set (s2 := deliver ds1 s1).
  destruct (deliver_spec ds1 s1) as (Hst2 & Hb2 & Hmnt2 & _ & Href2 & Hch2).
  fold s2 in Hst2, Hb2, Hmnt2, Href2, Hch2.
  (* the recording is stopped *)
  set (s3 := commit (handleStopRecording s2)).
  assert (Hstep3 : step ClickShutter s2 = Some s3).
  { unfold step, live_controls, handleShutterClick.
    by rewrite Hmnt2, Hmnt1, Hm1, Hm, Hst2, Hst1, Hp1, Hp, Hmode1, Hmode, Hisrec. }
  assert (Hstop2 : handleStopRecording s2
                   = setIsRecording false (with_browser (recorder_stop r) s2)).
  { unfold handleStopRecording. by rewrite Href2, Href1, Href. }
  destruct (commit_frame (handleStopRecording s2)) as (Hst3 & _ & Hch3 & Hmnt3 & _).
  destruct (commit_browser (handleStopRecording s2)) as (_ & Hurl3 & Hrs3 & _).
  fold s3 in Hst3, Hch3, Hmnt3, Hurl3, Hrs3.
  rewrite Hstop2 in Hst3, Hch3, Hmnt3, Hurl3, Hrs3.
  simpl in Hst3, Hch3, Hmnt3, Hurl3, Hrs3.
  assert (Hlook3 : recorders (browser s3) !! r
                   = Some {| rec_stream := rec_stream m1; rec_mimeType := rec_mimeType m1;
                             rec_state := inactive; rec_stopping := true |}).
  { rewrite Hrs3, lookup_alter_eq, Hb2, Hrs1, Hlook. simpl. by rewrite Hstate. }
  (* the last chunks arrive, then the stop event *)
  set (s4 := deliver ds2 s3).
  destruct (deliver_spec ds2 s3) as (Hst4 & Hb4 & Hmnt4 & _ & _ & Hch4).
  fold s4 in Hst4, Hb4, Hmnt4, Hch4.
  set (s5 := commit (onstop (with_browser (recorder_stopped r) s4))).
  assert (Hstep5 : step (Stopped r) s4 = Some s5).
  { unfold step. by rewrite Hmnt4, Hmnt3, Hmnt2, Hmnt1, Hm1, Hm, Hb4, Hlook3. }
  destruct (commit_frame (onstop (with_browser (recorder_stopped r) s4)))
    as (Hst5 & _ & Hch5 & _).
  destruct (commit_browser (onstop (with_browser (recorder_stopped r) s4)))
    as (_ & _ & Hrs5 & _).
  fold s5 in Hst5, Hch5, Hrs5.
  assert (Hchunks : recordedChunksRef (refs s4)
                    = filter (λ d, 0 < blob_size d) (ds1 ++ ds2)).
  { rewrite Hch4, Hch3, Hch2, Hch1, Hch, filter_app. done. }
  exists s5. split.
  { change (run (ClickShutter :: map (DataAvailable r) ds1
                   ++ ClickShutter :: map (DataAvailable r) ds2 ++ [Stopped r]) s
            = Some s5).
    simpl. rewrite Hstep1.
    rewrite (run_deliver ds1 _ s1 r m1);
      [|by rewrite Hmnt1, Hm1|by rewrite Hrs1|by left].
    fold s2. simpl. rewrite Hstep3.
    erewrite (run_deliver ds2 _ s3 r);
      [|by rewrite Hmnt3, Hmnt2, Hmnt1, Hm1|exact Hlook3|by right].
    fold s4. simpl. by rewrite Hstep5. }
  assert (Hblob : previewBlob (st s5)
                  = Some {| blob_data := concat (map blob_data (ds1 ++ ds2));
                            blob_type := "video/webm" |}).
  { rewrite Hst5. simpl. unfold new_Blob. by rewrite Hchunks, concat_nonempty. }
  split; [done|]. split.
  { unfold main_element. rewrite Hblob. rewrite Hst5. simpl. by eexists. }
  split. { rewrite Hst5. simpl. by rewrite Hst4, Hst3. }
  split. { by rewrite Hch5. }
  unfold recorder_open. rewrite Hrs5. simpl.
  by rewrite lookup_alter_eq, Hb4, Hlook3.
Qed.

Lemma recording_yields_delivered_bytes_witness :
  ∃ s',
    run (ClickShutter :: map (DataAvailable 1) [chunk [Byte.x01]; chunk []]
           ++ ClickShutter :: map (DataAvailable 1) [chunk [Byte.x02; Byte.x03]]
           ++ [Stopped 1]) second_take_demo = Some s'
    ∧ previewBlob (st s')
      = Some {| blob_data := [Byte.x01; Byte.x02; Byte.x03];
                blob_type := "video/webm" |}
    ∧ (∃ url, preview (st s') = Some url ∧ main_element s' = video_player url)
    ∧ isRecording (st s') = false
    ∧ recordedChunksRef (refs s') = [chunk [Byte.x01]; chunk [Byte.x02; Byte.x03]]
    ∧ recorder_open (browser s') 1 = false.
Proof.
  apply (recording_yields_delivered_bytes second_take_demo
           {| stream_id := 1; stream_tracks := [1; 2];
              frame_width := 640; frame_height := 480 |}
           [chunk [Byte.x01]; chunk []] [chunk [Byte.x02; Byte.x03]]);
    reflexivity.
Defined.

(** ** The recorder behind [isRecording] *)

Lemma alter_is_Some {A} (f : A → A) (i j : nat) (m : gmap nat A) :
  is_Some (alter f i m !! j) ↔ is_Some (m !! j).
Proof.
  destruct (decide (i = j)) as [->|Hne].
  - by rewrite lookup_alter_eq, fmap_is_Some.
  - by rewrite lookup_alter_ne.
Qed.

Lemma recorder_known_handles (e : Event) (s x : System) :
  recorder_known s → handles e s x → recorder_known x.
Proof.
  intros HK Hh. pose proof HK as [Hrec Href]. destruct Hh; try done.
  - (* the shutter *)
    unfold handleShutterClick.
    destruct (mode (st s)).
    { unfold handleTakePicture. by repeat case_match. }
    destruct (isRecording (st s)) eqn:Hisrec.
    + unfold handleStopRecording.
      destruct (mediaRecorderRef (refs s)) as [r|] eqn:Hr; [|exact HK].
      split; [done|]. simpl. intros r' Hr'. rewrite Hr in Hr'.
      apply alter_is_Some. apply Href. exact Hr'.
    + destruct (stream (st s)) as [ms|] eqn:Hs.
      * destruct (start_recording_spec s ms Hs)
          as (m & Hr & Hl & _ & _ & _ & _ & Hi & _).
        split; [by rewrite Hr|]. intros r'. rewrite Hr. intros [= <-].
        by rewrite Hl.
      * unfold handleStartRecording. rewrite Hs. exact HK.
  - unfold handleRetake. by destruct (preview (st s)).
  - unfold handleConfirm. destruct (previewBlob (st s)); exact HK.
  - assert (recorders br = recorders (browser s)) as Hrs
      by (unfold open_stream in *; by simplify_eq).
    unfold recorder_known, setupCamera_resolved. simpl.
    destruct (videoRef (refs s)); simpl; by rewrite Hrs.
  - unfold recorder_known. by destruct (toBlob_result req bytes).
  - split; [done|]. simpl. intros r' Hr'. apply alter_is_Some. by apply Href.
Qed.

Lemma recorder_known_run (b : Browser) (evs : list Event) (s : System) :
  run evs (mount b) = Some s → recorder_known s.
Proof.
  intros Hrun.
  apply (run_invariant recorder_known) with (evs := evs) (s := mount b);
    [| | | | |done].
  - intros e s0 x _ HP Hh. apply (recorder_known_handles e s0 x HP) in Hh.
    unfold recorder_known in *.
    destruct (commit_frame x) as (-> & -> & _).
    by destruct (commit_browser x) as (_ & _ & -> & _).
  - intros data s0. unfold ondataavailable. by case_match.
  - intros r s0 [Hrec Href]. split; [done|]. simpl. intros r' Hr'.
    apply alter_is_Some. by apply Href.
  - intros s0 [Hrec Href]. unfold recorder_known, unmount. simpl.
    destruct (effect_cleanup_frame s0) as (-> & -> & _).
    by destruct (effect_cleanup_browser s0) as (_ & _ & -> & _).
  - split; [done|]. done.
Qed.

(** X11: in every state of a session in which [isRecording] is set, the
    shutter in video mode finds the recorder in [mediaRecorderRef], stops
    it (it is inactive afterwards) and clears [isRecording]: the guard
    [if (mediaRecorderRef.current)] never skips a stop. *)
Theorem shutter_stops_the_recorder (b : Browser) (evs : list Event) (s : System) :
  run evs (mount b) = Some s →
  mounted s = true → preview (st s) = None →
  mode (st s) = video → isRecording (st s) = true →
  ∃ s' r m,
    step ClickShutter s = Some s'
    ∧ mediaRecorderRef (refs s) = Some r
    ∧ recorders (browser s') !! r = Some m
    ∧ rec_state m = inactive
    ∧ isRecording (st s') = false.
Proof.
  intros Hrun Hm Hp Hmode Hisrec.
  destruct (recorder_known_run b evs s Hrun) as [Hrec Href].
  destruct (Hrec Hisrec) as [r Hr]. destruct (Href r Hr) as [m0 Hm0].
  assert (Hsh : handleShutterClick s
                = setIsRecording false (with_browser (recorder_stop r) s)).
  { unfold handleShutterClick, handleStopRecording. by rewrite Hmode, Hisrec, Hr. }
  eexists (commit (handleShutterClick s)), r, _. split.
  { unfold step, live_controls. by rewrite Hm, Hp. }
  split; [done|].
  destruct (commit_frame (handleShutterClick s)) as (-> & _).
  destruct (commit_browser (handleShutterClick s)) as (_ & _ & -> & _).
  rewrite Hsh. simpl. rewrite lookup_alter_eq, Hm0. simpl.
  split; [reflexivity|]. split; [|done].
  destruct (rec_state m0) eqn:E; simpl; done.
Qed.

Lemma shutter_stops_the_recorder_witness :
  ∃ s' r m,
    step ClickShutter recording_demo = Some s'
    ∧ mediaRecorderRef (refs recording_demo) = Some r
    ∧ recorders (browser s') !! r = Some m
    ∧ rec_state m = inactive
    ∧ isRecording (st s') = false.
Proof.
  apply (shutter_stops_the_recorder chrome recording_events recording_demo);
    vm_compute; reflexivity.
Defined.

(** ** What reaches the caller *)

Lemma types_ok_handles (e : Event) (s x : System) :
  preview_registered s → types_ok s → handles e s x → types_ok x.
Proof.
  intros Hpr HT Hh. pose proof HT as (Hq & Hb & Hl). destruct Hh; try done.
  - split; [done|]. split; [done|]. simpl. apply Forall_app. by split; [|repeat constructor].
  - (* the shutter *)
    unfold handleShutterClick.
    destruct (mode (st s)).
    { unfold handleTakePicture.
      destruct (videoRef (refs s)); [|exact HT].
      destruct (context_2d (browser s)); [|exact HT].
      split; [|done]. simpl. apply Forall_app. split; [done|]. by repeat constructor. }
    destruct (isRecording (st s)).
    + unfold handleStopRecording.
      destruct (mediaRecorderRef (refs s)); [|exact HT]. done.
    + destruct (stream (st s)) as [ms|] eqn:Hs.
      * unfold handleStartRecording, new_MediaRecorder_with, new_MediaRecorder.
        rewrite Hs. simpl. case_bool_decide; simpl; [done|].
        split; [done|]. split; [done|]. simpl.
        apply Forall_app. split; [done|]. by repeat constructor.
      * unfold handleStartRecording. rewrite Hs. exact HT.
  - unfold handleRetake. destruct (preview (st s)); by repeat split.
  - unfold handleConfirm. destruct (previewBlob (st s)) as [blob|] eqn:Hblob;
      [|exact HT].
    split; [done|]. split; [exact (proj1 (proj2 HT))|]. simpl.
    apply Forall_app. split; [done|]. apply Forall_singleton. simpl.
    split; [done|]. by apply Hb.
  - assert (toBlob_pending br = toBlob_pending (browser s)) as Hqs
      by (unfold open_stream in *; by simplify_eq).
    unfold types_ok, setupCamera_resolved. simpl.
    destruct (videoRef (refs s)); simpl; by rewrite Hqs.
  - split; [exact Hq|]. split; [exact Hb|]. simpl. rewrite !Forall_app.
    repeat split; try done; by apply Forall_singleton.
  - rewrite H in Hq. apply Forall_cons in Hq as [Hreq Hrest].
    unfold toBlob_result.
    destruct ((canvas_width req =? 0) || (canvas_height req =? 0)); simpl.
    { by repeat split. }
    destruct bytes as [d|]; simpl; [|by repeat split].
    split; [done|]. split; [|done]. simpl. intros blob [= <-]. by left.
  - split; [done|]. split; [|done]. simpl. intros blob [= <-]. by right.
Qed.

Lemma step_preview_registered (e : Event) (s s' : System) :
  step e s = Some s' → preview_registered s → preview_registered s'.
Proof.
  intros Hstep HP.
  apply step_handles in Hstep
    as (_ & [(x & Hx & ->)|[(r & d & _ & ->)|[(r & _ & ->)|(_ & ->)]]]).
  - apply preview_registered_commit. by eapply preview_registered_handles.
  - unfold ondataavailable. by case_match.
  - done.
  - unfold preview_registered, unmount. simpl.
    destruct (effect_cleanup_frame s) as (-> & _).
    by destruct (effect_cleanup_browser s) as (_ & -> & _).
Qed.

Lemma types_ok_run (b : Browser) (evs : list Event) (s : System) :
  toBlob_pending b = [] → run evs (mount b) = Some s →
  preview_registered s ∧ types_ok s.
Proof.
  intros Hb Hrun.
  apply (run_invariant (λ s, preview_registered s ∧ types_ok s))
    with (evs := evs) (s := mount b); [| | | | |done].
  - intros e s0 x _ [HP HT] Hh. split.
    + apply preview_registered_commit. by eapply preview_registered_handles.
    + apply (types_ok_handles e s0 x HP HT) in Hh. unfold types_ok in *.
      destruct (commit_frame x) as (-> & _ & _ & _ & ->).
      by destruct (commit_browser x) as (_ & _ & _ & -> & _).
  - intros data s0. unfold ondataavailable. by case_match.
  - done.
  - intros s0 [HP HT]. split.
    + unfold preview_registered, unmount in *. simpl.
      destruct (effect_cleanup_frame s0) as (-> & _).
      by destruct (effect_cleanup_browser s0) as (_ & -> & _).
    + unfold types_ok, unmount in *. simpl.
      destruct (effect_cleanup_frame s0) as (-> & _ & _ & _ & ->).
      by destruct (effect_cleanup_browser s0) as (_ & _ & _ & -> & _).
  - split; [done|]. unfold types_ok. simpl. rewrite Hb. by repeat split.
Qed.

(** X12: whatever happens in a session, every [onCapture] call passes the
    blob together with the blob's own type, and that type is "image/jpeg"
    or "video/webm". *)
Theorem captured_artifacts_are_jpeg_or_webm (b : Browser) (evs : list Event)
    (s : System) (blob : Blob) (mimeType : string) :
  toBlob_pending b = [] → run evs (mount b) = Some s →
  onCapture blob mimeType ∈ log s →
  mimeType = blob_type blob
  ∧ (mimeType = "image/jpeg" ∨ mimeType = "video/webm").
Proof.
  intros Hb Hrun Hin.
  destruct (types_ok_run b evs s Hb Hrun) as (_ & _ & _ & Hl).
  rewrite Forall_forall in Hl. exact (Hl _ Hin).
Qed.

Lemma captured_artifacts_are_jpeg_or_webm_witness :
  onCapture jpeg_demo "image/jpeg" ∈ log confirmed_photo_demo
  ∧ "image/jpeg" = blob_type jpeg_demo
  ∧ ("image/jpeg" = "image/jpeg" ∨ "image/jpeg" = "video/webm").
Proof.
  assert (H : onCapture jpeg_demo "image/jpeg" ∈ log confirmed_photo_demo)
    by (apply elem_of_cons; by left).
  split; [exact H|].
  apply (captured_artifacts_are_jpeg_or_webm chrome
           (photo_preview_events ++ [ClickConfirm]) confirmed_photo_demo
           jpeg_demo "image/jpeg");
    [reflexivity|vm_compute; reflexivity|exact H].
Defined.

(** X13: what is on screen.  Without a preview the live [<video>] is
    rendered.  With one, a blob is stored, and a JPEG is shown in an
    [<img>], a WebM in a [<video>] player, on the preview's URL. *)
Theorem preview_element_matches_artifact (b : Browser) (evs : list Event)
    (s : System) :
  toBlob_pending b = [] → run evs (mount b) = Some s →
  match preview (st s) with
  | None => main_element s = live_video
  | Some url =>
      ∃ blob, previewBlob (st s) = Some blob
        ∧ ((blob_type blob = "image/jpeg" ∧ main_element s = img url)
           ∨ (blob_type blob = "video/webm" ∧ main_element s = video_player url))
  end.
Proof.
  intros Hb Hrun.
  destruct (types_ok_run b evs s Hb Hrun) as (HP & _ & Hty & _).
  unfold preview_registered, main_element in *.
  destruct (preview (st s)) as [url|]; [|done].
  destruct (previewBlob (st s)) as [blob|]; [|done].
  exists blob. split; [done|].
  destruct (Hty blob eq_refl) as [-> | ->]; [by left|by right].
Qed.

Lemma preview_element_matches_artifact_witness :
  ∃ s, run (recording_events ++ [ClickShutter; Stopped 0]) (mount chrome) = Some s
       ∧ match preview (st s) with
         | None => main_element s = live_video
         | Some url =>
             ∃ blob, previewBlob (st s) = Some blob
               ∧ ((blob_type blob = "image/jpeg" ∧ main_element s = img url)
                  ∨ (blob_type blob = "video/webm"
                     ∧ main_element s = video_player url))
         end.
Proof.
  eexists. split; [vm_compute; reflexivity|].
  apply (preview_element_matches_artifact chrome
           (recording_events ++ [ClickShutter; Stopped 0]));
    [reflexivity|vm_compute; reflexivity].
Defined.

(** ** Counting the callbacks *)

Lemma step_calls (e : Event) (s s' : System) :
  step e s = Some s' → preview_registered s →
  calls is_onClose (log s')
  = calls is_onClose (log s)
    + (if is_close_click e || is_rejection e then 1 else 0)
  ∧ calls is_alert (log s')
    = calls is_alert (log s) + (if is_rejection e then 1 else 0)
  ∧ calls is_onCapture (log s')
    = calls is_onCapture (log s) + (if is_confirm_click e then 1 else 0).
Proof.
  intros Hstep HP.
  apply step_handles in Hstep
    as (_ & [(x & Hx & ->)|[(r & d & -> & ->)|[(r & -> & ->)|(-> & ->)]]]).
  - destruct (commit_frame x) as (_ & _ & _ & _ & ->).
    destruct Hx.
    + simpl. rewrite !calls_app. unfold calls. simpl. lia.
    + simpl. lia.
    + simpl. lia.
    + simpl. lia.
    + (* the shutter *)
      assert (log (handleShutterClick s) = log s
              ∨ log (handleShutterClick s)
                = log s ++ [console_error
                              "Error creating MediaRecorder with vp9, falling back:"])
        as [-> | ->]; [|simpl; lia|rewrite !calls_app; unfold calls; simpl; lia].
      unfold handleShutterClick, handleTakePicture, handleStopRecording.
      destruct (mode (st s)); [by repeat case_match; left|].
      destruct (isRecording (st s)); [by repeat case_match; left|].
      destruct (stream (st s)) as [ms|] eqn:Hs.
      * destruct (start_recording_spec s ms Hs)
          as (_ & _ & _ & _ & _ & _ & _ & _ & _ & _ & _ & _ & ->).
        case_bool_decide; [left; by rewrite app_nil_r|by right].
      * unfold handleStartRecording. rewrite Hs. by left.
    + unfold handleRetake. destruct (preview (st s)); simpl; lia.
    + (* confirm: with a preview on screen a blob is stored *)
      unfold preview_registered in HP. rewrite H in HP.
      unfold handleConfirm. destruct (previewBlob (st s)); [|done].
      simpl. rewrite !calls_app. unfold calls. simpl. lia.
    + unfold setupCamera_resolved. simpl. destruct (videoRef (refs s)); simpl; lia.
    + simpl. rewrite !calls_app. unfold calls. simpl. lia.
    + destruct (toBlob_result req bytes); simpl; lia.
    + simpl. lia.
  - unfold ondataavailable. case_match; simpl; lia.
  - simpl. lia.
  - unfold unmount. simpl.
    destruct (effect_cleanup_frame s) as (_ & _ & _ & _ & ->). simpl. lia.
Qed.

(** X14: the callbacks of a session, counted.  [onClose] has been called once
    per close click and once per rejected [getUserMedia]; [alert] once per
    rejection; [onCapture] once per confirm click.  Nothing else calls
    them, and nothing keeps a second click from calling again. *)
Theorem callbacks_follow_the_events (b : Browser) (evs : list Event) (s : System) :
  run evs (mount b) = Some s →
  calls is_onClose (log s)
  = occurrences is_close_click evs + occurrences is_rejection evs
  ∧ calls is_alert (log s) = occurrences is_rejection evs
  ∧ calls is_onCapture (log s) = occurrences is_confirm_click evs.
Proof.
  assert (Hgen : ∀ evs s0 s, preview_registered s0 → run evs s0 = Some s →
    calls is_onClose (log s)
    = calls is_onClose (log s0)
      + occurrences is_close_click evs + occurrences is_rejection evs
    ∧ calls is_alert (log s)
      = calls is_alert (log s0) + occurrences is_rejection evs
    ∧ calls is_onCapture (log s)
      = calls is_onCapture (log s0) + occurrences is_confirm_click evs).
  { clear. intros evs. induction evs as [|e evs IH]; intros s0 s HP Hrun.
    - simpl in Hrun. simplify_eq. unfold occurrences. simpl. lia.
    - simpl in Hrun. destruct (step e s0) as [s1|] eqn:Hstep; [|done].
      destruct (step_calls e s0 s1 Hstep HP) as (H1 & H2 & H3).
      destruct (IH s1 s (step_preview_registered e s0 s1 Hstep HP) Hrun)
        as (-> & -> & ->).
      rewrite H1, H2, H3. unfold occurrences. simpl.
      destruct e; simpl; lia. }
  intros Hrun. by destruct (Hgen evs (mount b) s I Hrun) as (-> & -> & ->).
Qed.

Lemma callbacks_follow_the_events_witness :
  ∃ s, run confirmed_clip_events (mount chrome) = Some s
       ∧ calls is_onClose (log s) = 1
       ∧ calls is_alert (log s) = 0
       ∧ calls is_onCapture (log s) = 2.
Proof.
  eexists. split; [vm_compute; reflexivity|].
  apply (callbacks_follow_the_events chrome confirmed_clip_events).
  vm_compute. reflexivity.
Defined.

(** ** The effect's cleanup *)

Lemma handles_tracks_frame (e : Event) (s x : System) :
  handles e s x →
  (∃ r w h, e = Resolved r w h)
  ∨ (stream (st x) = stream (st s) ∧ hook x = hook s
     ∧ live_tracks (browser x) = live_tracks (browser s)
     ∧ next_track (browser x) = next_track (browser s)).
Proof.
  intros Hh. destruct Hh; try (by right); try (by left; eauto).
  - right. unfold handleShutterClick, handleTakePicture, handleStopRecording,
      handleStartRecording, new_MediaRecorder_with, new_MediaRecorder.
    by repeat case_match; simplify_eq.
  - right. unfold handleRetake. by destruct (preview (st s)).
  - right. unfold handleConfirm. by destruct (previewBlob (st s)).
  - right. by destruct (toBlob_result req bytes).
Qed.

Lemma tracks_accounted_shrink (s s' : System) :
  stream (st s') = stream (st s) → hook s' = hook s →
  live_tracks (browser s') ⊆ live_tracks (browser s) →
  next_track (browser s') = next_track (browser s) →
  tracks_accounted s → tracks_accounted s'.
Proof.
  intros Hs Hh Hl Hn (H1 & H2 & H3). unfold tracks_accounted.
  rewrite Hs, Hh, Hn. split; [|split].
  - intros t Ht. apply H1. by apply Hl.
  - done.
  - intros ms t Hms Ht. destruct (H3 ms t Hms Ht) as [Hlt Hnl].
    split; [done|]. intros Hin. apply Hnl. by apply Hl.
Qed.

Lemma effect_cleanup_next_track (s : System) :
  next_track (browser (effect_cleanup s)) = next_track (browser s).
Proof.
  unfold effect_cleanup. destruct (effect_stream (hook s)); [|done].
  simpl. apply stop_all_tracks_counters.
Qed.

Lemma tracks_accounted_commit (x : System) :
  tracks_accounted x → tracks_accounted (commit x).
Proof.
  intros HT. unfold commit.
  assert (HT1 : tracks_accounted (render_video x)).
  { destruct (render_video_frame x) as (Hst & _ & _ & Hh & _ & _ & Hb).
    unfold tracks_accounted. by rewrite Hst, Hh, Hb. }
  case_bool_decide as Hdeps; [done|]. clear Hdeps.
  set (y := effect_cleanup (render_video x)).
  assert (HT2 : tracks_accounted y).
  { destruct (effect_cleanup_frame (render_video x)) as (Hst & _ & Hh & _).
    destruct (effect_cleanup_browser (render_video x)) as (_ & _ & _ & _ & Hl).
    apply (tracks_accounted_shrink (render_video x));
      [by rewrite <- Hst|exact Hh|exact Hl|apply effect_cleanup_next_track|exact HT1]. }
  destruct HT2 as (H1 & H2 & H3).
  pose proof (run_effect_cam y) as Hcam.
  assert (Hlive : live_tracks (browser (run_effect y))
                  = match stream (st y) with
                    | Some ms => live_tracks (browser y) ∖ list_to_set (stream_tracks ms)
                    | None => live_tracks (browser y)
                    end).
  { change (live_tracks (browser (run_effect y))) with (cam_live (cam (run_effect y))).
    by rewrite Hcam. }
  assert (Hnext : next_track (browser (run_effect y)) = next_track (browser y)).
  { change (next_track (browser (run_effect y))) with (cam_next_track (cam (run_effect y))).
    by rewrite Hcam. }
  destruct (run_effect_frame y) as (Hst & _).
  assert (Hhook : effect_stream (hook (run_effect y)) = stream (st y)) by done.
  unfold tracks_accounted. rewrite Hst, Hhook, Hnext, Hlive.
  split; [|split].
  - intros t Ht. apply H1. destruct (stream (st y)); [|done].
    by apply elem_of_difference in Ht as [? _].
  - done.
  - intros ms t Hms Ht. split; [by eapply H2|].
    rewrite Hms. intros Hin. apply elem_of_difference in Hin as [_ Hn].
    apply Hn. by apply elem_of_list_to_set.
Qed.

Lemma tracks_accounted_handles (e : Event) (s x : System) :
  tracks_accounted s → handles e s x → tracks_accounted x.
Proof.
  intros HT Hh.
  destruct (handles_tracks_frame e s x Hh) as [(r & w & h & ->)|(Hs & Hk & Hl & Hn)].
  2:{ apply (tracks_accounted_shrink s); [done|done|by rewrite Hl|done|done]. }
  destruct HT as (H1 & H2 & H3).
  inversion Hh as [| | | | | | |? ? c ? ? ms br Hr Hopen| | |]; subst.
  pose proof (open_stream_tracks _ _ _ _ _ _ Hopen) as Htracks. simpl in Htracks.
  assert (Hbr : live_tracks br = list_to_set (stream_tracks ms) ∪ live_tracks (browser s)
                ∧ next_track br = next_track (browser s) + length (stream_tracks ms)).
  { unfold open_stream in Hopen. by simplify_eq. }
  destruct Hbr as (Hlive & Hnext).
  assert (Hx : stream (st (setupCamera_resolved ms (with_browser (λ _, br) s))) = Some ms
               ∧ hook (setupCamera_resolved ms (with_browser (λ _, br) s)) = hook s
               ∧ browser (setupCamera_resolved ms (with_browser (λ _, br) s)) = br).
  { unfold setupCamera_resolved. simpl. by destruct (videoRef (refs s)). }
  destruct Hx as (Hxs & Hxh & Hxb).
  unfold tracks_accounted. rewrite Hxs, Hxh, Hxb, Hlive, Hnext.
  split; [|split].
  - intros t [Ht|Ht]%elem_of_union.
    + apply elem_of_list_to_set in Ht. specialize (Htracks t Ht). lia.
    + specialize (H1 t Ht). lia.
  - intros ms' t [= <-] Ht. specialize (Htracks t Ht). lia.
  - intros ms' t Hms Ht. destruct (H3 ms' t Hms Ht) as [Hlt Hnl].
    split; [lia|]. intros [Hin|Hin]%elem_of_union; [|done].
    apply elem_of_list_to_set in Hin. specialize (Htracks t Hin). lia.
Qed.

Lemma tracks_accounted_run (b : Browser) (evs : list Event) (s : System) :
  (∀ t, t ∈ live_tracks b → t < next_track b) →
  run evs (mount b) = Some s → tracks_accounted s.
Proof.
  intros Hb Hrun.
  apply (run_invariant tracks_accounted) with (evs := evs) (s := mount b);
    [| | | | |done].
  - intros e s0 x _ HT Hh. apply tracks_accounted_commit.
    by eapply tracks_accounted_handles.
  - intros data s0. unfold ondataavailable. by case_match.
  - done.
  - intros s0 HT. unfold unmount.
    destruct (effect_cleanup_frame s0) as (Hst & _ & Hh & _).
    destruct (effect_cleanup_browser s0) as (_ & _ & _ & _ & Hl).
    apply (tracks_accounted_shrink s0);
      [simpl; by rewrite Hst|simpl; exact Hh|exact Hl
      |apply effect_cleanup_next_track|exact HT].
  - repeat split; simpl; done.
Qed.

(** X15: the cleanup function of the effect never stops a live track.  It
    stops the [stream] of the render in which the effect ran, and
    [setupCamera] had stopped that stream already; so in every state of a
    session, unmounting the component leaves every live track live, the
    held stream included. *)
Theorem unmount_stops_no_live_track (b : Browser) (evs : list Event) (s s' : System) :
  (∀ t, t ∈ live_tracks b → t < next_track b) →
  run evs (mount b) = Some s → step Unmount s = Some s' →
  live_tracks (browser s') = live_tracks (browser s)
  ∧ holds_live_stream s' = holds_live_stream s.
Proof.
  intros Hb Hrun Hstep.
  destruct (tracks_accounted_run b evs s Hb Hrun) as (_ & _ & H3).
  unfold step in Hstep. destruct (mounted s); [simpl in Hstep|done].
  injection Hstep as <-.
  assert (Hlive : live_tracks (browser (unmount s)) = live_tracks (browser s)).
  { unfold unmount, effect_cleanup. simpl.
    destruct (effect_stream (hook s)) as [ms|] eqn:He; [|done].
    simpl. rewrite stop_all_tracks_live. apply set_eq. intros t.
    rewrite elem_of_difference, elem_of_list_to_set. split; [by intros [? _]|].
    intros Ht. split; [done|]. intros Hin. by destruct (H3 ms t eq_refl Hin). }
  split; [done|].
  unfold holds_live_stream, stream_live. rewrite Hlive.
  unfold unmount. simpl. by destruct (effect_cleanup_frame s) as (-> & _).
Qed.

Lemma unmount_stops_no_live_track_witness :
  ∃ s', step Unmount streaming_demo = Some s'
        ∧ live_tracks (browser s') = live_tracks (browser streaming_demo)
        ∧ holds_live_stream s' = holds_live_stream streaming_demo.
Proof.
  eexists. split; [reflexivity|].
  apply (unmount_stops_no_live_track chrome [Resolved 0 1280 720] streaming_demo);
    [|vm_compute; reflexivity|reflexivity].
  intros t Ht. by apply elem_of_empty in Ht.
Defined.

(** ** One stream at a time *)

(** X16: in a session in which the flip and mode buttons are used only while
    no [getUserMedia] request is pending, at most one stream is ever open:
    two streams with a live track are the same stream, it is the one in
    [stream], and no request is pending then. *)
Theorem serial_sessions_never_hold_two_streams (b : Browser) (evs : list Event)
    (s : System) (ms1 ms2 : MediaStream) :
  live_tracks b = ∅ → gum_pending b = ∅ → streams b = [] →
  serial_run evs (mount b) = Some s →
  ms1 ∈ open_handles (browser s) → ms2 ∈ open_handles (browser s) →
  ms1 = ms2 ∧ stream (st s) = Some ms1 ∧ gum_pending (browser s) = ∅.
Proof.
  intros Hl Hp Hs Hrun H1 H2.
  destruct (serial_sessions_hold_one_stream b evs s Hl Hp Hs Hrun ms1 H1) as [E1 Hq].
  destruct (serial_sessions_hold_one_stream b evs s Hl Hp Hs Hrun ms2 H2) as [E2 _].
  split; [congruence|done].
Qed.

Lemma serial_sessions_never_hold_two_streams_witness :
  flipped_stream ∈ open_handles (browser flipped_demo)
  ∧ flipped_stream = flipped_stream
  ∧ stream (st flipped_demo) = Some flipped_stream
  ∧ gum_pending (browser flipped_demo) = ∅.
Proof.
  assert (Hin : flipped_stream ∈ open_handles (browser flipped_demo)).
  { vm_compute. apply elem_of_cons. by left. }
  split; [exact Hin|].
  apply (serial_sessions_never_hold_two_streams chrome flipped_events
           flipped_demo flipped_stream flipped_stream);
    [reflexivity|reflexivity|reflexivity|vm_compute; reflexivity|exact Hin|exact Hin].
Defined.

(** ** Confirm, in a session *)

(** X17: in every state of a session that shows a preview, the confirm button
    hands over the blob behind the URL on screen: [onCapture] is called
    with that blob and its type, and nothing else changes.  The guard
    [if (previewBlob)] never turns a click on that button into a no-op. *)
Theorem confirm_hands_over_the_previewed_blob (b : Browser) (evs : list Event)
    (s : System) (url : nat) :
  run evs (mount b) = Some s → mounted s = true → preview (st s) = Some url →
  ∃ blob,
    object_urls (browser s) !! url = Some blob
    ∧ step ClickConfirm s = Some (emit (onCapture blob (blob_type blob)) s).
Proof.
  intros Hrun Hm Hp.
  pose proof (preview_registered_run b evs s Hrun) as HP.
  unfold preview_registered in HP. rewrite Hp in HP.
  destruct (previewBlob (st s)) as [blob|] eqn:Hblob; [|done].
  exists blob. split; [done|].
  unfold step, live_controls, handleConfirm. rewrite Hm, Hp, Hblob. simpl.
  f_equal. apply commit_settled.
  destruct (run_settled b evs s Hrun Hm) as [Hst Hr]. by split.
Qed.

Lemma confirm_hands_over_the_previewed_blob_witness :
  ∃ blob,
    object_urls (browser photo_preview_demo) !! 0 = Some blob
    ∧ step ClickConfirm photo_preview_demo
      = Some (emit (onCapture blob (blob_type blob)) photo_preview_demo).
Proof.
  apply (confirm_hands_over_the_previewed_blob chrome photo_preview_events
           photo_preview_demo 0);
    vm_compute; reflexivity.
Defined.
